(** * LucideIcon: icon registry, SVG serialisation, fluent wrapper,
      collections and themes

    A shallow embedding of [lucideicon.hpp], [lucideicon.cpp],
    [src/iconwrapper.hpp] and [src/iconwrapper.cpp].

    Conventions of the embedding.
    - [std::string] is [string] (a sequence of 8-bit characters); C++ [int]
      is [Z].  The code never does arithmetic on its [int] fields, it only
      stores, compares and prints them, so no wrap-around is involved and
      every statement below holds in particular for all 32-bit values.
    - [std::stringstream] is the string accumulated so far; [ss << x]
      appends the characters [operator<<] writes for [x] with the stream's
      default formatting in the classic locale (an [int] in decimal, no
      digit grouping).
    - [std::shared_ptr<Icon>] is [option Icon.t] ([None] is the null
      pointer).  An [Icon] is immutable after construction, so sharing of
      handles cannot be observed.
    - The process-wide [IconRegistry::getInstance()] is the state of the
      monad [M]; a [throw std::runtime_error(msg)] is the result
      [Throw msg].
    - A member function that mutates [*this] and returns [*this] is a
      function from the object's state before the call to its state after
      it, so a chain [w.size(s).color(c)] is [color c (size s w)].
    - A parameter passed by reference that can designate a part of the
      object it is passed to is modelled by what it refers to
      ([IconCollection.name_ref], [IconCollection.names_ref]); a call whose
      behaviour is undefined, or that does not return, has the result
      [None]. *)

From Stdlib Require Import Ascii.
From Stdlib Require HexadecimalString.
From stdpp Require Import gmap strings list fin_maps pretty sorting.

Local Open Scope string_scope.
Local Open Scope Z_scope.

(** ** Characters and streams *)

(** The double-quote character (code 34), escaped in the C++ literals. *)
Definition dq : string := String (Ascii.ascii_of_nat 34%nat) EmptyString.

(** [s.empty()] *)
Definition empty (s : string) : bool :=
  match s with
  | EmptyString => true
  | String _ _ => false
  end.

(** The overloads of [operator<<] the code uses: [std::string] / string
    literals, and [int] (decimal, with a leading minus sign). *)
Class Insertable (A : Type) := chars_of : A -> string.

#[global] Instance Insertable_string : Insertable string := fun s => s.
#[global] Instance Insertable_int : Insertable Z := fun n => pretty n.

Definition stream_insert {A : Type} `{Insertable A} (ss : string) (x : A) : string :=
  ss +:+ chars_of x.

Notation "ss << x" := (stream_insert ss x) (at level 67, left associativity).

(** [v.push_back(x)] on a [std::vector]. *)
Definition push_back {A : Type} (v : list A) (x : A) : list A := (v ++ [x])%list.

(** ** Registry state and exceptions *)

Inductive Result (A : Type) : Type :=
| Ok (a : A)
| Throw (what : string).

Arguments Ok {A} a.
Arguments Throw {A} what.

(** ** IconConfig (lucideicon.hpp) *)

Module IconConfig.

Record t : Type := mk {
  width : Z;
  height : Z;
  size : Z;
  stroke : string;
  strokeWidth : Z;
  strokeLinecap : string;
  strokeLinejoin : string;
  fill : string;
  color : string;
  className : string;
  style : string
}.

(** [IconConfig{}]: the default member initialisers. *)
Definition default : t :=
  {| width := 24; height := 24; size := 24;
     stroke := "currentColor"; strokeWidth := 2;
     strokeLinecap := "round"; strokeLinejoin := "round";
     fill := "none"; color := "currentColor";
     className := EmptyString; style := EmptyString |}.

(** Assignments to one member. *)
Definition set_width (v : Z) (c : t) : t :=
  mk v (height c) (size c) (stroke c) (strokeWidth c) (strokeLinecap c)
     (strokeLinejoin c) (fill c) (color c) (className c) (style c).
Definition set_height (v : Z) (c : t) : t :=
  mk (width c) v (size c) (stroke c) (strokeWidth c) (strokeLinecap c)
     (strokeLinejoin c) (fill c) (color c) (className c) (style c).
Definition set_size (v : Z) (c : t) : t :=
  mk (width c) (height c) v (stroke c) (strokeWidth c) (strokeLinecap c)
     (strokeLinejoin c) (fill c) (color c) (className c) (style c).
Definition set_stroke (v : string) (c : t) : t :=
  mk (width c) (height c) (size c) v (strokeWidth c) (strokeLinecap c)
     (strokeLinejoin c) (fill c) (color c) (className c) (style c).
Definition set_strokeWidth (v : Z) (c : t) : t :=
  mk (width c) (height c) (size c) (stroke c) v (strokeLinecap c)
     (strokeLinejoin c) (fill c) (color c) (className c) (style c).
Definition set_fill (v : string) (c : t) : t :=
  mk (width c) (height c) (size c) (stroke c) (strokeWidth c) (strokeLinecap c)
     (strokeLinejoin c) v (color c) (className c) (style c).
Definition set_color (v : string) (c : t) : t :=
  mk (width c) (height c) (size c) (stroke c) (strokeWidth c) (strokeLinecap c)
     (strokeLinejoin c) (fill c) v (className c) (style c).
Definition set_className (v : string) (c : t) : t :=
  mk (width c) (height c) (size c) (stroke c) (strokeWidth c) (strokeLinecap c)
     (strokeLinejoin c) (fill c) (color c) v (style c).
Definition set_style (v : string) (c : t) : t :=
  mk (width c) (height c) (size c) (stroke c) (strokeWidth c) (strokeLinecap c)
     (strokeLinejoin c) (fill c) (color c) (className c) v.

(** [void setSize(int s) { size = s; width = s; height = s; }] *)
Definition setSize (s : Z) (c : t) : t :=
  let c := set_size s c in
  let c := set_width s c in
  set_height s c.

(** [void setColor(const std::string& c) { color = c; stroke = c; }] *)
Definition setColor (v : string) (c : t) : t :=
  let c := set_color v c in
  set_stroke v c.

End IconConfig.

(** ** Icon (lucideicon.cpp) *)

Module Icon.

Record t : Type := mk {
  name_ : string;
  pathData_ : string
}.

Definition getName (self : t) : string := name_ self.
Definition getPathData (self : t) : string := pathData_ self.

(** [Icon::buildSVG], one binding per statement of the source. *)
Definition buildSVG (self : t) (config : IconConfig.t) : string :=
  let ss := EmptyString in
  let ss := ss << "<svg" in
  let ss := ss << " xmlns=" +:+ dq +:+ "http://www.w3.org/2000/svg" +:+ dq in
  let ss := ss << " width=" +:+ dq << IconConfig.width config << dq in
  let ss := ss << " height=" +:+ dq << IconConfig.height config << dq in
  let ss := ss << " viewBox=" +:+ dq +:+ "0 0 24 24" +:+ dq in
  let ss := ss << " fill=" +:+ dq << IconConfig.fill config << dq in
  let ss := ss << " stroke=" +:+ dq << IconConfig.stroke config << dq in
  let ss := ss << " stroke-width=" +:+ dq << IconConfig.strokeWidth config << dq in
  let ss := ss << " stroke-linecap=" +:+ dq << IconConfig.strokeLinecap config << dq in
  let ss := ss << " stroke-linejoin=" +:+ dq << IconConfig.strokeLinejoin config << dq in
  let ss :=
    if negb (empty (IconConfig.className config))
    then ss << " class=" +:+ dq << IconConfig.className config << dq
    else ss in
  let ss :=
    if negb (empty (IconConfig.style config))
    then ss << " style=" +:+ dq << IconConfig.style config << dq
    else ss in
  let ss := ss << ">" in
  let ss := ss << pathData_ self in
  let ss := ss << "</svg>" in
  ss.

(** [Icon::toSVG(const IconConfig&)] and [Icon::toSVG()] *)
Definition toSVG (self : t) (config : IconConfig.t) : string :=
  buildSVG self config.

Definition toSVG_default (self : t) : string :=
  buildSVG self IconConfig.default.

End Icon.

(** ** The monad of calls against the registry singleton *)

(** A computation reads and may update the map [icons_] of the single
    [IconRegistry] instance, and either returns or throws. *)
Definition M (A : Type) : Type :=
  gmap string Icon.t -> Result A * gmap string Icon.t.

#[global] Instance M_ret : MRet M := fun A a icons_ => (Ok a, icons_).

#[global] Instance M_bind : MBind M := fun A B f m icons_ =>
  match m icons_ with
  | (Ok a, icons_') => f a icons_'
  | (Throw what, icons_') => (Throw what, icons_')
  end.

Definition throw {A : Type} (what : string) : M A :=
  fun icons_ => (Throw what, icons_).

Definition gets {A : Type} (f : gmap string Icon.t -> A) : M A :=
  fun icons_ => (Ok (f icons_), icons_).

Definition modify (f : gmap string Icon.t -> gmap string Icon.t) : M unit :=
  fun icons_ => (Ok tt, f icons_).

(** A call that may have undefined behaviour ([None]). *)
Definition U (A : Type) : Type :=
  gmap string Icon.t -> option (Result A * gmap string Icon.t).

(** ** IconRegistry (lucideicon.cpp) *)

Module IconRegistry.

(** [icons_[name] = std::make_shared<Icon>(name, pathData);] *)
Definition registerIcon (name pathData : string) : M unit :=
  modify (fun icons_ => <[name := Icon.mk name pathData]> icons_).

(** [auto it = icons_.find(name); return (it != icons_.end()) ? it->second : nullptr;] *)
Definition getIcon (name : string) : M (option Icon.t) :=
  gets (fun icons_ =>
    match icons_ !! name with
    | Some icon => Some icon
    | None => None
    end).

(** [return icons_.find(name) != icons_.end();] *)
Definition hasIcon (name : string) : M bool :=
  gets (fun icons_ =>
    match icons_ !! name with
    | Some _ => true
    | None => false
    end).

(** [auto icon = getIcon(name); return icon ? icon->toSVG(config) : empty;] *)
Definition generateSVG (name : string) (config : IconConfig.t) : M string :=
  icon ← getIcon name;
  mret (match icon with
        | Some i => Icon.toSVG i config
        | None => EmptyString
        end).

(** [getAllIconNames]: one [push_back] of the key per entry, in the
    iteration order of the map, then [std::sort] with [operator<] of
    [std::string] (lexicographic on the character codes). *)
Definition getAllIconNames : M (list string) :=
  gets (fun icons_ =>
    let names := [] in
    let names :=
      foldl (fun names pair => push_back names (fst pair)) names
            (map_to_list icons_) in
    merge_sort String.le names).

(** [getAvailableIcons() const { return getAllIconNames(); }] *)
Definition getAvailableIcons : M (list string) := getAllIconNames.

End IconRegistry.

(** ** Utils (lucideicon.cpp) *)

Module Utils.






End Utils.

(** ** IconWrapper (src/iconwrapper.cpp) *)

Module IconWrapper.

Record t : Type := mk {
  icon_ : option Icon.t;
  config_ : IconConfig.t
}.

(** [IconWrapper::IconWrapper(const std::string& iconName)] *)
Definition of_name (iconName : string) : M t :=
  icon ← IconRegistry.getIcon iconName;
  match icon with
  | None => throw ("Icon not found: " +:+ iconName)
  | Some _ => mret (mk icon IconConfig.default)
  end.


Definition getConfig (self : t) : IconConfig.t := config_ self.

(** [size(int width, int height)] *)
Definition size2 (width height : Z) (self : t) : t :=
  let self := mk (icon_ self) (IconConfig.set_width width (config_ self)) in
  mk (icon_ self) (IconConfig.set_height height (config_ self)).

(** [size(int size) { return this->size(size, size); }] *)
Definition size (size : Z) (self : t) : t := size2 size size self.

Definition stroke (color : string) (self : t) : t :=
  mk (icon_ self) (IconConfig.set_stroke color (config_ self)).

Definition strokeWidth (width : Z) (self : t) : t :=
  mk (icon_ self) (IconConfig.set_strokeWidth width (config_ self)).

Definition fill (color : string) (self : t) : t :=
  mk (icon_ self) (IconConfig.set_fill color (config_ self)).

Definition className (cls : string) (self : t) : t :=
  mk (icon_ self) (IconConfig.set_className cls (config_ self)).

Definition style (styleStr : string) (self : t) : t :=
  mk (icon_ self) (IconConfig.set_style styleStr (config_ self)).

(** [if (!icon_) return empty; return icon_->toSVG(config_);] *)
Definition render (self : t) : string :=
  match icon_ self with
  | None => EmptyString
  | Some icon => Icon.toSVG icon (config_ self)
  end.

Definition reset (self : t) : t := mk (icon_ self) IconConfig.default.


(** [color]: three assignments, to [color], [stroke] and [fill]. *)
Definition color (color : string) (self : t) : t :=
  let self := mk (icon_ self) (IconConfig.set_color color (config_ self)) in
  let self := mk (icon_ self) (IconConfig.set_stroke color (config_ self)) in
  mk (icon_ self) (IconConfig.set_fill color (config_ self)).

(** The loop of [renderMultiple]; [results] is the vector built so far. *)
Fixpoint renderMultiple_loop (iconNames : list string) (config : IconConfig.t)
    (results : list string) : M (list string) :=
  match iconNames with
  | [] => mret results
  | iconName :: rest =>
      icon ← IconRegistry.getIcon iconName;
      let results :=
        match icon with
        | Some i => push_back results (Icon.toSVG i config)
        | None => push_back results EmptyString
        end in
      renderMultiple_loop rest config results
  end.

Definition renderMultiple (iconNames : list string) (config : IconConfig.t)
    : M (list string) :=
  renderMultiple_loop iconNames config [].



End IconWrapper.

(** ** IconCollection (src/iconwrapper.cpp) *)

Module IconCollection.

Record t : Type := mk {
  name_ : string;
  iconNames_ : list string
}.

(** [IconCollection::IconCollection(const std::string& name)] *)
Definition new (name : string) : t := mk name [].

Definition getName (self : t) : string := name_ self.
Definition size (self : t) : nat := length (iconNames_ self).
Definition getIconNames (self : t) : list string := iconNames_ self.

(** [if (registry.hasIcon(iconName)) iconNames_.push_back(iconName);] *)
Definition addIcon (iconName : string) (self : t) : M t :=
  present ← IconRegistry.hasIcon iconName;
  if (present : bool)
  then mret (mk (name_ self) (push_back (iconNames_ self) iconName))
  else mret self.

(** What the [const std::vector<std::string>&] parameter of [addIcons] can
    refer to: a vector other than [iconNames_], or [iconNames_] itself (the
    reference [getIconNames()] returns). *)
Inductive names_ref : Type :=
| Other (iconNames : list string)
| Own.

(** The range-for of [addIcons] over a vector other than [iconNames_]. *)
Fixpoint addIcons_loop (iconNames : list string) (self : t) : M t :=
  match iconNames with
  | [] => mret self
  | iconName :: rest => self ← addIcon iconName self; addIcons_loop rest self
  end.

(** The range-for of [addIcons] over [iconNames_] itself.  The loop holds
    iterators into the vector; the first [push_back] invalidates them and
    the behaviour of the loop is undefined from there ([None]).  While no
    member is registered nothing is pushed and the loop runs on. *)
Fixpoint addIcons_own_loop (remaining : list string) (self : t)
    (icons_ : gmap string Icon.t)
    : option (Result t * gmap string Icon.t) :=
  match remaining with
  | [] => Some (Ok self, icons_)
  | iconName :: rest =>
      match IconRegistry.hasIcon iconName icons_ with
      | (Ok true, _) => None
      | (Ok false, icons_') => addIcons_own_loop rest self icons_'
      | (Throw what, icons_') => Some (Throw what, icons_')
      end
  end.

(** [for (const auto& iconName : iconNames) addIcon(iconName);] *)
Definition addIcons (iconNames : names_ref) (self : t) : U t :=
  fun icons_ =>
    match iconNames with
    | Other l => Some (addIcons_loop l self icons_)
    | Own => addIcons_own_loop (iconNames_ self) self icons_
    end.

(** What the [const std::string&] parameter of [removeIcon] can refer to:
    a string outside [iconNames_], or the element of index [i] of
    [iconNames_]. *)
Inductive name_ref : Type :=
| Outside (s : string)
| Element (i : nat).

(** The string the reference designates now, in the vector [v]. *)
Definition deref (value : name_ref) (v : list string) : string :=
  match value with
  | Outside s => s
  | Element i => default EmptyString (v !! i)
  end.

(** [std::find]: the index of the first element equal to [s], the length
    of the vector when there is none. *)
Fixpoint find (s : string) (v : list string) : nat :=
  match v with
  | [] => O
  | x :: v' => if decide (x = s) then O else S (find s v')
  end.

(** The loop of [std::remove] after the first match: [i] runs over the
    [todo] elements that are left, [result] is where the next element to
    keep goes.  The value is read through the reference at every
    comparison.  [*result = std::move( *i )] leaves the string at [i] in a
    valid state that is not specified: [moved_from i x], for any function
    [moved_from] of the index and of the string that was there. *)
Fixpoint remove_loop (moved_from : nat -> string -> string)
    (value : name_ref) (todo : nat)
    (i result : nat) (v : list string) : list string * nat :=
  match todo with
  | O => (v, result)
  | S todo' =>
      let x := default EmptyString (v !! i) in
      if decide (x = deref value v)
      then remove_loop moved_from value todo' (S i) result v
      else remove_loop moved_from value todo' (S i) (S result)
             (<[i := moved_from i x]> (<[result := x]> v))
  end.

(** [std::remove(v.begin(), v.end(), value)]: the vector after the call
    and the index of the iterator returned. *)
Definition std_remove (moved_from : nat -> string -> string)
    (value : name_ref) (v : list string) : list string * nat :=
  let first := find (deref value v) v in
  if decide (first = length v)
  then (v, first)
  else remove_loop moved_from value (length v - S first) (S first) first v.

(** [iconNames_.erase(std::remove(begin, end, iconName), end);]
    [None]: the reference is to an element the vector does not have. *)
Definition removeIcon (moved_from : nat -> string -> string)
    (iconName : name_ref) (self : t) : option t :=
  match iconName with
  | Element i =>
      if decide (i < length (iconNames_ self))%nat
      then
        let (v, result) := std_remove moved_from iconName (iconNames_ self) in
        Some (mk (name_ self) (take result v))
      else None
  | Outside _ =>
      let (v, result) := std_remove moved_from iconName (iconNames_ self) in
      Some (mk (name_ self) (take result v))
  end.

Definition clear (self : t) : t := mk (name_ self) [].

Definition renderAll (config : IconConfig.t) (self : t) : M (list string) :=
  IconWrapper.renderMultiple (iconNames_ self) config.

End IconCollection.

(** ** IconTheme (src/iconwrapper.cpp) *)

Module IconTheme.

Record t : Type := mk {
  name_ : string;
  themeConfig_ : IconConfig.t
}.

(** [IconTheme::IconTheme(const std::string& name)] *)
Definition new (name : string) : t := mk name IconConfig.default.

Definition getConfig (self : t) : IconConfig.t := themeConfig_ self.

Definition setDefaultStroke (color : string) (self : t) : t :=
  mk (name_ self) (IconConfig.set_stroke color (themeConfig_ self)).

Definition setDefaultFill (color : string) (self : t) : t :=
  mk (name_ self) (IconConfig.set_fill color (themeConfig_ self)).

Definition setDefaultStrokeWidth (width : Z) (self : t) : t :=
  mk (name_ self) (IconConfig.set_strokeWidth width (themeConfig_ self)).

Definition setDefaultSize (size : Z) (self : t) : t :=
  mk (name_ self) (IconConfig.setSize size (themeConfig_ self)).

Definition setDefaultColor (color : string) (self : t) : t :=
  mk (name_ self) (IconConfig.setColor color (themeConfig_ self)).

(** [IconTheme::applyTheme]: [result] starts as a copy of [baseConfig];
    each [if] tests [baseConfig] and assigns to [result]. *)
Definition applyTheme (self : t) (baseConfig : IconConfig.t) : IconConfig.t :=
  let result := baseConfig in
  let result :=
    if String.eqb (IconConfig.stroke baseConfig) "currentColor"
    then IconConfig.set_stroke
           (if empty (IconConfig.stroke (themeConfig_ self))
            then "currentColor" else IconConfig.stroke (themeConfig_ self))
           result
    else result in
  let result :=
    if String.eqb (IconConfig.fill baseConfig) "none"
    then IconConfig.set_fill
           (if empty (IconConfig.fill (themeConfig_ self))
            then "none" else IconConfig.fill (themeConfig_ self))
           result
    else result in
  let result :=
    if IconConfig.strokeWidth baseConfig =? 2
    then IconConfig.set_strokeWidth
           (if IconConfig.strokeWidth (themeConfig_ self) =? 2
            then 2 else IconConfig.strokeWidth (themeConfig_ self))
           result
    else result in
  let result :=
    if IconConfig.width baseConfig =? 24
    then IconConfig.set_width
           (if IconConfig.width (themeConfig_ self) =? 24
            then 24 else IconConfig.width (themeConfig_ self))
           result
    else result in
  let result :=
    if IconConfig.height baseConfig =? 24
    then IconConfig.set_height
           (if IconConfig.height (themeConfig_ self) =? 24
            then 24 else IconConfig.height (themeConfig_ self))
           result
    else result in
  result.

Definition light : t :=
  let theme := new "light" in
  let theme := setDefaultStroke "#000000" theme in
  let theme := setDefaultFill "none" theme in
  let theme := setDefaultStrokeWidth 2 theme in
  let theme := setDefaultSize 24 theme in
  theme.

Definition dark : t :=
  let theme := new "dark" in
  let theme := setDefaultStroke "#ffffff" theme in
  let theme := setDefaultFill "none" theme in
  let theme := setDefaultStrokeWidth 2 theme in
  let theme := setDefaultSize 24 theme in
  theme.

Definition colorful : t :=
  let theme := new "colorful" in
  let theme := setDefaultStroke "#3b82f6" theme in
  let theme := setDefaultFill "#dbeafe" theme in
  let theme := setDefaultStrokeWidth 2 theme in
  let theme := setDefaultSize 24 theme in
  theme.

End IconTheme.

(** ** SVGUtils: the paint attributes of [parseSVGString]
       (src/iconwrapper.cpp)

    [parseSVGString] walks the shapes that the nanosvg parser returns and
    writes floating-point coordinates; those parts are not embedded.  What
    follows is the text it writes for the colour of a paint, which is
    integer and string work only.  The enumerator [NSVG_PAINT_COLOR] comes
    from nanosvg.h and is taken as a parameter. *)

Module SVGUtils.

Record NSVGpaint : Type := mkPaint {
  type : Z;
  color : Z
}.

(** The characters [operator<<] writes for an unsigned value while
    [std::hex] is in force: lowercase digits, no prefix, no padding. *)
Definition hex (n : Z) : string :=
  HexadecimalString.NilZero.string_of_uint (N.to_hex_uint (Z.to_N n)).

(** [<< std::hex << ((color >> 16) & 0xFF) << ((color >> 8) & 0xFF)
       << (color & 0xFF)] *)
Definition write_channels (ss : string) (color : Z) : string :=
  ss << hex (Z.land (Z.shiftr color 16) 255)
     << hex (Z.land (Z.shiftr color 8) 255)
     << hex (Z.land color 255).

(** The [if (shape->fill.type == NSVG_PAINT_COLOR) ... else ...] that ends
    every path element. *)
Definition write_fill (NSVG_PAINT_COLOR : Z) (fill : NSVGpaint)
    (pathStream : string) : string :=
  if type fill =? NSVG_PAINT_COLOR
  then
    let color := color fill in
    let pathStream := pathStream << " fill=" +:+ dq +:+ "#" in
    let pathStream := write_channels pathStream color in
    pathStream << dq
  else pathStream << " fill=" +:+ dq +:+ "none" +:+ dq.

End SVGUtils.

(** ** Vocabulary of the statements *)

(** [s] begins with [p], ends with [q], has [t] as a substring. *)
Definition starts_with (p s : string) : Prop := exists rest, s = p +:+ rest.
Definition ends_with (q s : string) : Prop := exists front, s = front +:+ q.
Definition contains (t s : string) : Prop :=
  exists front rest, s = front +:+ t +:+ rest.

(** An attribute as it appears in the markup: [key], an equals sign and
    the value between double quotes, the value unescaped. *)
Definition attribute (key value : string) : string :=
  key +:+ "=" +:+ dq +:+ value +:+ dq.

(** An attribute that is present only for a non-empty value. *)
Definition optional_attribute (key value : string) : string :=
  if empty value then EmptyString else " " +:+ attribute key value.

(** The opening tag up to, and without, the closing angle bracket. *)
Definition opening_tag (config : IconConfig.t) : string :=
  "<svg"
  +:+ " " +:+ attribute "xmlns" "http://www.w3.org/2000/svg"
  +:+ " " +:+ attribute "width" (pretty (IconConfig.width config))
  +:+ " " +:+ attribute "height" (pretty (IconConfig.height config))
  +:+ " " +:+ attribute "viewBox" "0 0 24 24"
  +:+ " " +:+ attribute "fill" (IconConfig.fill config)
  +:+ " " +:+ attribute "stroke" (IconConfig.stroke config)
  +:+ " " +:+ attribute "stroke-width" (pretty (IconConfig.strokeWidth config))
  +:+ " " +:+ attribute "stroke-linecap" (IconConfig.strokeLinecap config)
  +:+ " " +:+ attribute "stroke-linejoin" (IconConfig.strokeLinejoin config)
  +:+ optional_attribute "class" (IconConfig.className config)
  +:+ optional_attribute "style" (IconConfig.style config).

(** Two configurations that differ at most in the convenience members
    [color] and [size]. *)
Definition agree_up_to_convenience (c1 c2 : IconConfig.t) : Prop :=
  IconConfig.width c1 = IconConfig.width c2 /\
  IconConfig.height c1 = IconConfig.height c2 /\
  IconConfig.stroke c1 = IconConfig.stroke c2 /\
  IconConfig.strokeWidth c1 = IconConfig.strokeWidth c2 /\
  IconConfig.strokeLinecap c1 = IconConfig.strokeLinecap c2 /\
  IconConfig.strokeLinejoin c1 = IconConfig.strokeLinejoin c2 /\
  IconConfig.fill c1 = IconConfig.fill c2 /\
  IconConfig.className c1 = IconConfig.className c2 /\
  IconConfig.style c1 = IconConfig.style c2.

(** Two configurations that differ at most in [width] and [height]. *)
Definition agree_up_to_width_height (c1 c2 : IconConfig.t) : Prop :=
  IconConfig.size c1 = IconConfig.size c2 /\
  IconConfig.stroke c1 = IconConfig.stroke c2 /\
  IconConfig.strokeWidth c1 = IconConfig.strokeWidth c2 /\
  IconConfig.strokeLinecap c1 = IconConfig.strokeLinecap c2 /\
  IconConfig.strokeLinejoin c1 = IconConfig.strokeLinejoin c2 /\
  IconConfig.fill c1 = IconConfig.fill c2 /\
  IconConfig.color c1 = IconConfig.color c2 /\
  IconConfig.className c1 = IconConfig.className c2 /\
  IconConfig.style c1 = IconConfig.style c2.

(** The members [applyTheme] never looks at. *)
Definition unthemed_members_equal (c1 c2 : IconConfig.t) : Prop :=
  IconConfig.className c1 = IconConfig.className c2 /\
  IconConfig.style c1 = IconConfig.style c2 /\
  IconConfig.strokeLinecap c1 = IconConfig.strokeLinecap c2 /\
  IconConfig.strokeLinejoin c1 = IconConfig.strokeLinejoin c2 /\
  IconConfig.size c1 = IconConfig.size c2 /\
  IconConfig.color c1 = IconConfig.color c2.

(** What a batch render owes for one name: the registered icon's markup,
    or the empty string when the name is unknown. *)
Definition markup_for (icons : gmap string Icon.t) (config : IconConfig.t)
    (name : string) : string :=
  match icons !! name with
  | Some icon => Icon.toSVG icon config
  | None => EmptyString
  end.

(** The fluent setters of [IconWrapper], as data, to speak about an
    arbitrary chain of calls. *)
Inductive setter : Type :=
| Size2 (width height : Z)
| Size (size : Z)
| Stroke (color : string)
| Color (color : string)
| StrokeWidth (width : Z)
| Fill (color : string)
| ClassName (cls : string)
| Style (styleStr : string)
| Reset.

Definition call (op : setter) (self : IconWrapper.t) : IconWrapper.t :=
  match op with
  | Size2 w h => IconWrapper.size2 w h self
  | Size s => IconWrapper.size s self
  | Stroke c => IconWrapper.stroke c self
  | Color c => IconWrapper.color c self
  | StrokeWidth w => IconWrapper.strokeWidth w self
  | Fill c => IconWrapper.fill c self
  | ClassName c => IconWrapper.className c self
  | Style s => IconWrapper.style s self
  | Reset => IconWrapper.reset self
  end.

(** [self.op1(..).op2(..)...]: the calls of [ops] from left to right. *)
Definition chain (ops : list setter) (self : IconWrapper.t) : IconWrapper.t :=
  fold_left (fun w op => call op w) ops self.


(** What a client can do to a collection and to the registry it is
    checked against, as data, to speak about arbitrary histories. *)
Inductive action : Type :=
| AddIcon (iconName : string)
| AddIcons (iconNames : IconCollection.names_ref)
| RemoveIcon (iconName : IconCollection.name_ref)
| Clear
| RegisterIcon (name pathData : string).

(** The calls whose argument is not a reference into the collection's own
    membership list. *)
Definition unaliased (a : action) : Prop :=
  match a with
  | AddIcons IconCollection.Own => False
  | RemoveIcon (IconCollection.Element _) => False
  | _ => True
  end.

Definition perform (moved_from : nat -> string -> string) (a : action)
    (c : IconCollection.t) : U IconCollection.t :=
  fun icons_ =>
    match a with
    | AddIcon n => Some (IconCollection.addIcon n c icons_)
    | AddIcons ns => IconCollection.addIcons ns c icons_
    | RemoveIcon n =>
        match IconCollection.removeIcon moved_from n c with
        | Some c' => Some (Ok c', icons_)
        | None => None
        end
    | Clear => Some (Ok (IconCollection.clear c), icons_)
    | RegisterIcon n p =>
        Some ((IconRegistry.registerIcon n p ;; mret c) icons_)
    end.

Fixpoint perform_all (moved_from : nat -> string -> string)
    (acts : list action) (c : IconCollection.t) : U IconCollection.t :=
  fun icons_ =>
    match acts with
    | [] => Some (Ok c, icons_)
    | a :: rest =>
        match perform moved_from a c icons_ with
        | Some (Ok c', icons_') => perform_all moved_from rest c' icons_'
        | Some (Throw what, icons_') => Some (Throw what, icons_')
        | None => None
        end
    end.



(** * Properties *)

(** ** Strings *)

Lemma append_cons (x : Ascii.ascii) (a b : string) :
  String x a +:+ b = String x (a +:+ b).
Proof. reflexivity. Qed.

Lemma append_assoc (a b c : string) : (a +:+ b) +:+ c = a +:+ (b +:+ c).
Proof.
  induction a as [|x a IH]; [reflexivity|].
  rewrite !append_cons. now rewrite IH.
Qed.

Lemma empty_spec (s : string) : empty s = true <-> s = EmptyString.
Proof. destruct s; simpl; split; congruence. Qed.

Lemma contains_append_r (t s x : string) : contains t s -> contains t (s +:+ x).
Proof.
  intros (front & rest & ->). exists front, (rest +:+ x).
  now rewrite !append_assoc.
Qed.

Lemma contains_append_l (t s x : string) : contains t s -> contains t (x +:+ s).
Proof.
  intros (front & rest & ->). exists (x +:+ front), rest.
  now rewrite !append_assoc.
Qed.

(** Stream insertion is plain concatenation. *)
Lemma stream_insert_string (ss x : string) : ss << x = ss +:+ x.
Proof. reflexivity. Qed.

Lemma stream_insert_int (ss : string) (n : Z) : ss << n = ss +:+ pretty n.
Proof. reflexivity. Qed.

(** Both sides of a goal become right-nested concatenations; what is left
    is computation on literals. *)
Ltac flatten_strings :=
  rewrite ?stream_insert_string, ?stream_insert_int;
  repeat rewrite append_assoc.

(** ** The markup produced by [buildSVG] *)

Lemma buildSVG_shape (icon : Icon.t) (config : IconConfig.t) :
  Icon.buildSVG icon config
  = opening_tag config +:+ ">" +:+ Icon.pathData_ icon +:+ "</svg>".
Proof.
  unfold Icon.buildSVG, opening_tag, optional_attribute, attribute, dq.
  destruct (empty (IconConfig.className config));
    destruct (empty (IconConfig.style config));
    cbn [negb]; flatten_strings; reflexivity.
Qed.

Lemma toSVG_shape (icon : Icon.t) (config : IconConfig.t) :
  Icon.toSVG icon config
  = opening_tag config +:+ ">" +:+ Icon.getPathData icon +:+ "</svg>".
Proof. apply buildSVG_shape. Qed.

Lemma contains_head (t rest : string) : contains t (t +:+ rest).
Proof. now exists EmptyString, rest. Qed.

Lemma contains_head2 (a b rest : string) :
  contains (a +:+ b) (a +:+ b +:+ rest).
Proof. exists EmptyString, rest. now rewrite append_assoc. Qed.

(** Walk a right-nested concatenation until the wanted segment is at its
    head. *)
Ltac find_segment :=
  lazymatch goal with
  | |- contains ?t (?t +:+ _) => apply contains_head
  | |- contains (?a +:+ ?b) (?a +:+ ?b +:+ _) => apply contains_head2
  | |- contains _ (_ +:+ _) => apply contains_append_l; find_segment
  end.

Ltac in_opening_tag :=
  rewrite toSVG_shape; apply contains_append_r;
  unfold opening_tag; find_segment.

Lemma toSVG_width (icon : Icon.t) (config : IconConfig.t) :
  contains (" " +:+ attribute "width" (pretty (IconConfig.width config)))
           (Icon.toSVG icon config).
Proof. in_opening_tag. Qed.

Lemma toSVG_height (icon : Icon.t) (config : IconConfig.t) :
  contains (" " +:+ attribute "height" (pretty (IconConfig.height config)))
           (Icon.toSVG icon config).
Proof. in_opening_tag. Qed.

Lemma toSVG_viewBox (icon : Icon.t) (config : IconConfig.t) :
  contains (attribute "viewBox" "0 0 24 24") (Icon.toSVG icon config).
Proof. in_opening_tag. Qed.

Lemma toSVG_fill (icon : Icon.t) (config : IconConfig.t) :
  contains (" " +:+ attribute "fill" (IconConfig.fill config))
           (Icon.toSVG icon config).
Proof. in_opening_tag. Qed.

Lemma toSVG_stroke (icon : Icon.t) (config : IconConfig.t) :
  contains (" " +:+ attribute "stroke" (IconConfig.stroke config))
           (Icon.toSVG icon config).
Proof. in_opening_tag. Qed.

Lemma toSVG_nonempty (icon : Icon.t) (config : IconConfig.t) :
  Icon.toSVG icon config <> EmptyString.
Proof. rewrite toSVG_shape. unfold opening_tag. discriminate. Qed.

(** C2. [Icon::toSVG(config)] is the opening tag followed by a closing
    angle bracket, the raw path data and the closing tag.  The opening tag
    begins with the literal svg tag name, carries the fixed view box
    0 0 24 24 whatever the width and height, carries width, height, fill,
    stroke, stroke-width, stroke-linecap and stroke-linejoin with the
    configuration's values unescaped, and carries a class (a style)
    attribute exactly when [className] ([style]) is not empty. *)
Theorem C2_toSVG_markup (icon : Icon.t) (config : IconConfig.t) :
  let out := Icon.toSVG icon config in
  starts_with "<svg" out /\
  contains (attribute "viewBox" "0 0 24 24") out /\
  out = "<svg"
        +:+ " " +:+ attribute "xmlns" "http://www.w3.org/2000/svg"
        +:+ " " +:+ attribute "width" (pretty (IconConfig.width config))
        +:+ " " +:+ attribute "height" (pretty (IconConfig.height config))
        +:+ " " +:+ attribute "viewBox" "0 0 24 24"
        +:+ " " +:+ attribute "fill" (IconConfig.fill config)
        +:+ " " +:+ attribute "stroke" (IconConfig.stroke config)
        +:+ " " +:+ attribute "stroke-width" (pretty (IconConfig.strokeWidth config))
        +:+ " " +:+ attribute "stroke-linecap" (IconConfig.strokeLinecap config)
        +:+ " " +:+ attribute "stroke-linejoin" (IconConfig.strokeLinejoin config)
        +:+ (if empty (IconConfig.className config) then EmptyString
             else " " +:+ attribute "class" (IconConfig.className config))
        +:+ (if empty (IconConfig.style config) then EmptyString
             else " " +:+ attribute "style" (IconConfig.style config))
        +:+ ">" +:+ Icon.getPathData icon +:+ "</svg>" /\
  ends_with (Icon.getPathData icon +:+ "</svg>") out.
Proof.
  cbv zeta. repeat split.
  - rewrite toSVG_shape. unfold opening_tag.
    eexists. rewrite !append_assoc. reflexivity.
  - apply toSVG_viewBox.
  - rewrite toSVG_shape. unfold opening_tag, optional_attribute.
    rewrite !append_assoc. reflexivity.
  - rewrite toSVG_shape. exists (opening_tag config +:+ ">").
    now rewrite !append_assoc.
Qed.

(** C10. The convenience members [color] and [size] are not read by the
    serialiser: two configurations that agree on every other member give
    the same markup for every icon. *)
Theorem C10_toSVG_ignores_convenience (icon : Icon.t) (c1 c2 : IconConfig.t)
    (Hagree : agree_up_to_convenience c1 c2) :
  Icon.toSVG icon c1 = Icon.toSVG icon c2.
Proof.
  destruct Hagree as (Hw & Hh & Hs & Hsw & Hlc & Hlj & Hf & Hc & Hst).
  unfold Icon.toSVG, Icon.buildSVG.
  now rewrite Hw, Hh, Hs, Hsw, Hlc, Hlj, Hf, Hc, Hst.
Qed.

Lemma C10_witness :
  agree_up_to_convenience
    IconConfig.default
    (IconConfig.set_color "red" (IconConfig.set_size 48 IconConfig.default)) /\
  IconConfig.default
    <> IconConfig.set_color "red" (IconConfig.set_size 48 IconConfig.default) /\
  Icon.toSVG (Icon.mk "home" "<path/>") IconConfig.default
  = Icon.toSVG (Icon.mk "home" "<path/>")
      (IconConfig.set_color "red" (IconConfig.set_size 48 IconConfig.default)).
Proof.
  assert (Hagree : agree_up_to_convenience
            IconConfig.default
            (IconConfig.set_color "red"
               (IconConfig.set_size 48 IconConfig.default)))
    by (repeat split).
  split; [exact Hagree|]. split; [discriminate|].
  exact (C10_toSVG_ignores_convenience _ _ _ Hagree).
Defined.

(** ** Themes *)

Lemma empty_false (s : string) : empty s = false <-> s <> EmptyString.
Proof. destruct s; simpl; split; congruence. Qed.

(** The result of [applyTheme], member by member. *)
Lemma applyTheme_members (theme : IconTheme.t) (base : IconConfig.t) :
  let th := IconTheme.themeConfig_ theme in
  IconTheme.applyTheme theme base
  = IconConfig.mk
      (if IconConfig.width base =? 24
       then (if IconConfig.width th =? 24 then 24 else IconConfig.width th)
       else IconConfig.width base)
      (if IconConfig.height base =? 24
       then (if IconConfig.height th =? 24 then 24 else IconConfig.height th)
       else IconConfig.height base)
      (IconConfig.size base)
      (if String.eqb (IconConfig.stroke base) "currentColor"
       then (if empty (IconConfig.stroke th)
             then "currentColor" else IconConfig.stroke th)
       else IconConfig.stroke base)
      (if IconConfig.strokeWidth base =? 2
       then (if IconConfig.strokeWidth th =? 2
             then 2 else IconConfig.strokeWidth th)
       else IconConfig.strokeWidth base)
      (IconConfig.strokeLinecap base)
      (IconConfig.strokeLinejoin base)
      (if String.eqb (IconConfig.fill base) "none"
       then (if empty (IconConfig.fill th) then "none" else IconConfig.fill th)
       else IconConfig.fill base)
      (IconConfig.color base)
      (IconConfig.className base)
      (IconConfig.style base).
Proof.
  cbv zeta. unfold IconTheme.applyTheme.
  destruct base as [w h sz st sw lc lj fl cl cn sy].
  cbn [IconConfig.stroke IconConfig.fill IconConfig.strokeWidth
       IconConfig.width IconConfig.height IconConfig.size IconConfig.color
       IconConfig.strokeLinecap IconConfig.strokeLinejoin
       IconConfig.className IconConfig.style].
  destruct (String.eqb st "currentColor"), (String.eqb fl "none"),
    (sw =? 2), (w =? 24), (h =? 24); reflexivity.
Qed.

(** C1, as the code has it.  [applyTheme theme base] is [base] except
    that: [stroke] ([fill]) becomes the theme's stored value exactly when
    the base value is the global default currentColor (none) and the
    theme's stored value is not the empty string; [strokeWidth], [width]
    and [height] become the theme's stored value exactly when the base
    value is the global default (2, 24, 24) and the theme's value is not
    that default.  The members class, style, linecap and linejoin (and the
    convenience members size and color) are never changed.  The dark theme
    applied to the default configuration gives stroke #ffffff, fill none,
    stroke width 2, width 24 and height 24. *)
Theorem C1_applyTheme_merge (theme : IconTheme.t) (base : IconConfig.t) :
  let th := IconTheme.getConfig theme in
  let result := IconTheme.applyTheme theme base in
  IconConfig.stroke result
  = (if decide (IconConfig.stroke base = "currentColor"
                /\ IconConfig.stroke th <> EmptyString)
     then IconConfig.stroke th else IconConfig.stroke base) /\
  IconConfig.fill result
  = (if decide (IconConfig.fill base = "none"
                /\ IconConfig.fill th <> EmptyString)
     then IconConfig.fill th else IconConfig.fill base) /\
  IconConfig.strokeWidth result
  = (if decide (IconConfig.strokeWidth base = 2
                /\ IconConfig.strokeWidth th <> 2)
     then IconConfig.strokeWidth th else IconConfig.strokeWidth base) /\
  IconConfig.width result
  = (if decide (IconConfig.width base = 24 /\ IconConfig.width th <> 24)
     then IconConfig.width th else IconConfig.width base) /\
  IconConfig.height result
  = (if decide (IconConfig.height base = 24 /\ IconConfig.height th <> 24)
     then IconConfig.height th else IconConfig.height base) /\
  unthemed_members_equal result base /\
  IconTheme.applyTheme IconTheme.dark IconConfig.default
  = IconConfig.set_stroke "#ffffff" IconConfig.default.
Proof.
  cbv zeta. unfold IconTheme.getConfig.
  split; [|split; [|split; [|split; [|split; [|split]]]]].
  - rewrite applyTheme_members; cbn [IconConfig.stroke].
    destruct (String.eqb_spec (IconConfig.stroke base) "currentColor");
      destruct (empty (IconConfig.stroke (IconTheme.themeConfig_ theme))) eqn:E;
      rewrite ?empty_spec, ?empty_false in E;
      case_decide; intuition congruence.
  - rewrite applyTheme_members; cbn [IconConfig.fill].
    destruct (String.eqb_spec (IconConfig.fill base) "none");
      destruct (empty (IconConfig.fill (IconTheme.themeConfig_ theme))) eqn:E;
      rewrite ?empty_spec, ?empty_false in E;
      case_decide; intuition congruence.
  - rewrite applyTheme_members; cbn [IconConfig.strokeWidth].
    destruct (Z.eqb_spec (IconConfig.strokeWidth base) 2);
      destruct (Z.eqb_spec
                  (IconConfig.strokeWidth (IconTheme.themeConfig_ theme)) 2);
      case_decide; intuition congruence.
  - rewrite applyTheme_members; cbn [IconConfig.width].
    destruct (Z.eqb_spec (IconConfig.width base) 24);
      destruct (Z.eqb_spec (IconConfig.width (IconTheme.themeConfig_ theme)) 24);
      case_decide; intuition congruence.
  - rewrite applyTheme_members; cbn [IconConfig.height].
    destruct (Z.eqb_spec (IconConfig.height base) 24);
      destruct (Z.eqb_spec (IconConfig.height (IconTheme.themeConfig_ theme)) 24);
      case_decide; intuition congruence.
  - rewrite applyTheme_members. repeat split.
  - reflexivity.
Qed.

Example applyTheme_colorful :
  IconTheme.applyTheme IconTheme.colorful IconConfig.default
  = IconConfig.set_fill "#dbeafe"
      (IconConfig.set_stroke "#3b82f6" IconConfig.default).
Proof. reflexivity. Qed.

Example applyTheme_keeps_explicit_stroke :
  IconConfig.stroke
    (IconTheme.applyTheme IconTheme.dark
       (IconConfig.set_stroke "red" IconConfig.default))
  = "red".
Proof. reflexivity. Qed.

(** C1, refuted as written: a theme whose stored stroke is the empty
    string differs from the global default, the base stroke is the global
    default, and yet the result does not carry the theme's stored value. *)
Lemma C1_counterexample :
  IconConfig.stroke IconConfig.default = "currentColor" /\
  IconConfig.stroke
    (IconTheme.getConfig
       (IconTheme.setDefaultStroke EmptyString (IconTheme.new "plain")))
  <> "currentColor" /\
  IconConfig.stroke
    (IconTheme.applyTheme
       (IconTheme.setDefaultStroke EmptyString (IconTheme.new "plain"))
       IconConfig.default)
  <> IconConfig.stroke
       (IconTheme.getConfig
          (IconTheme.setDefaultStroke EmptyString (IconTheme.new "plain"))).
Proof. repeat split; discriminate. Qed.

(** ** The registry *)

Lemma getIcon_run (name : string) (icons : gmap string Icon.t) :
  IconRegistry.getIcon name icons = (Ok (icons !! name), icons).
Proof.
  unfold IconRegistry.getIcon, gets. now destruct (icons !! name).
Qed.

Lemma hasIcon_run (name : string) (icons : gmap string Icon.t) :
  IconRegistry.hasIcon name icons
  = (Ok (bool_decide (is_Some (icons !! name))), icons).
Proof.
  unfold IconRegistry.hasIcon, gets.
  destruct (icons !! name) as [icon|] eqn:E.
  - rewrite bool_decide_eq_true_2; [reflexivity | eauto].
  - rewrite bool_decide_eq_false_2; [reflexivity | now apply is_Some_None].
Qed.

Lemma bind_run {A B : Type} (m : M A) (f : A -> M B) (a : A)
    (icons icons' : gmap string Icon.t) :
  m icons = (Ok a, icons') -> (m ≫= f) icons = f a icons'.
Proof. intros H. unfold mbind, M_bind. now rewrite H. Qed.

(** C3. [generateSVG(name, config)] returns normally in every case: the
    empty string when no icon is registered under [name], the registered
    icon's [toSVG(config)] otherwise; the registry is the same after the
    call as before. *)
Theorem C3_generateSVG (name : string) (config : IconConfig.t)
    (icons : gmap string Icon.t) :
  IconRegistry.generateSVG name config icons
  = (Ok (match icons !! name with
         | None => EmptyString
         | Some icon => Icon.toSVG icon config
         end),
     icons).
Proof.
  unfold IconRegistry.generateSVG.
  rewrite (bind_run _ _ _ _ _ (getIcon_run name icons)).
  now destruct (icons !! name).
Qed.

(** C5. After [registerIcon(name, P)], [getIcon(name)] returns an icon
    whose path data is exactly [P] and whose name is [name], for every pair
    of strings; the registry holds just that new entry for [name].
    Registering [name] twice leaves the registry as the second registration
    alone would: the last one wins. *)
Theorem C5_register_then_get (name P P' : string) (icons : gmap string Icon.t) :
  (exists icon icons',
      (IconRegistry.registerIcon name P ;; IconRegistry.getIcon name) icons
      = (Ok (Some icon), icons') /\
      Icon.getPathData icon = P /\
      Icon.getName icon = name /\
      icons' = <[name := Icon.mk name P]> icons) /\
  (IconRegistry.registerIcon name P ;; IconRegistry.registerIcon name P') icons
  = IconRegistry.registerIcon name P' icons /\
  (IconRegistry.registerIcon name P ;; IconRegistry.registerIcon name P' ;;
   IconRegistry.getIcon name) icons
  = (Ok (Some (Icon.mk name P')), <[name := Icon.mk name P']> icons).
Proof.
  assert (Hreg : forall Q m,
             IconRegistry.registerIcon name Q m
             = (Ok tt, <[name := Icon.mk name Q]> m)) by reflexivity.
  split; [|split].
  - exists (Icon.mk name P), (<[name := Icon.mk name P]> icons).
    rewrite (bind_run _ _ _ _ _ (Hreg P icons)), getIcon_run.
    now rewrite lookup_insert_eq.
  - rewrite (bind_run _ _ _ _ _ (Hreg P icons)), !Hreg.
    now rewrite insert_insert_eq.
  - rewrite (bind_run _ _ _ _ _ (Hreg P icons)).
    rewrite (bind_run _ _ _ _ _ (Hreg P' _)), getIcon_run.
    now rewrite insert_insert_eq, lookup_insert_eq.
Qed.

(** ** Collections *)

(** C7. [addIcon(name)] returns normally and leaves the registry alone.
    When [name] is not registered the collection is unchanged (hence same
    size, elements and order); when it is, the membership list is the old
    one with [name] appended at the end, under the same collection name. *)
Theorem C7_addIcon (name : string) (c : IconCollection.t)
    (icons : gmap string Icon.t) :
  exists c',
    IconCollection.addIcon name c icons = (Ok c', icons) /\
    c' = match icons !! name with
         | None => c
         | Some _ =>
             IconCollection.mk (IconCollection.getName c)
               (IconCollection.getIconNames c ++ [name])%list
         end /\
    IconCollection.size c'
    = match icons !! name with
      | None => IconCollection.size c
      | Some _ => S (IconCollection.size c)
      end.
Proof.
  unfold IconCollection.addIcon.
  rewrite (bind_run _ _ _ _ _ (hasIcon_run name icons)).
  destruct (icons !! name) as [icon|] eqn:E.
  - rewrite bool_decide_eq_true_2 by eauto.
    eexists. split; [reflexivity|]. split; [reflexivity|].
    unfold IconCollection.size, push_back. cbn [IconCollection.iconNames_].
    rewrite length_app. cbn [length]. lia.
  - rewrite bool_decide_eq_false_2 by (now apply is_Some_None).
    eexists. repeat split.
Qed.

(** ** Batch rendering *)

(** The loop appends to [results] one string per remaining name. *)
Lemma renderMultiple_loop_run (iconNames : list string) (config : IconConfig.t)
    (icons : gmap string Icon.t) :
  forall results,
    IconWrapper.renderMultiple_loop iconNames config results icons
    = (Ok (results ++ map (markup_for icons config) iconNames)%list, icons).
Proof.
  induction iconNames as [|iconName rest IH]; intros results.
  - cbn. now rewrite app_nil_r.
  - cbn [IconWrapper.renderMultiple_loop map].
    rewrite (bind_run _ _ _ _ _ (getIcon_run iconName icons)).
    change (markup_for icons config iconName)
      with (match icons !! iconName with
            | Some icon => Icon.toSVG icon config
            | None => EmptyString
            end).
    destruct (icons !! iconName) as [icon|];
      rewrite IH; unfold push_back; now rewrite <- app_assoc.
Qed.

(** C4. [renderMultiple(names, config)] returns normally a list as long as
    [names]; at every index it holds the [toSVG(config)] of the icon
    registered under the name at that index, or the empty string when that
    name is not registered. *)
Theorem C4_renderMultiple (iconNames : list string) (config : IconConfig.t)
    (icons : gmap string Icon.t) :
  exists results,
    IconWrapper.renderMultiple iconNames config icons = (Ok results, icons) /\
    length results = length iconNames /\
    forall i : nat,
      results !! i
      = (fun name =>
           match icons !! name with
           | Some icon => Icon.toSVG icon config
           | None => EmptyString
           end) <$> (iconNames !! i).
Proof.
  exists (map (markup_for icons config) iconNames). split; [|split].
  - unfold IconWrapper.renderMultiple. now rewrite renderMultiple_loop_run.
  - apply length_map.
  - intros i. now rewrite list_lookup_fmap.
Qed.

(** The two-name batch of the specification's test list. *)
Example renderMultiple_home_ghost (P : string) :
  exists svg,
    fst (IconWrapper.renderMultiple ["home"; "ghost-icon"] IconConfig.default
           (<["home" := Icon.mk "home" P]> ∅))
    = Ok [svg; EmptyString] /\ svg <> EmptyString.
Proof.
  unfold IconWrapper.renderMultiple. rewrite renderMultiple_loop_run.
  eexists. split; [reflexivity|]. apply toSVG_nonempty.
Qed.

(** ** The fluent wrapper *)

Lemma call_icon (op : setter) (w : IconWrapper.t) :
  IconWrapper.icon_ (call op w) = IconWrapper.icon_ w.
Proof. now destruct op. Qed.

Lemma chain_icon (ops : list setter) :
  forall w, IconWrapper.icon_ (chain ops w) = IconWrapper.icon_ w.
Proof.
  induction ops as [|op ops IH]; intros w; [reflexivity|].
  unfold chain in *. cbn [fold_left]. now rewrite IH, call_icon.
Qed.

Lemma render_bound (w : IconWrapper.t) (icon : Icon.t) :
  IconWrapper.icon_ w = Some icon ->
  IconWrapper.render w = Icon.toSVG icon (IconWrapper.config_ w).
Proof. intros H. unfold IconWrapper.render. now rewrite H. Qed.


(** C9. [size(s)] and [size(w, h)] assign [width] and [height] and nothing
    else: the convenience member [size] and every other member keep their
    values, and the bound icon stays.  So when [s] is not the value [size]
    had before, [getConfig().size] and [getConfig().width] differ after
    [size(s)], whereas [IconConfig::setSize] leaves the three equal. *)
Theorem C9_size_setter_frame (w : IconWrapper.t) (s width height : Z) :
  let before := IconWrapper.getConfig w in
  let after1 := IconWrapper.getConfig (IconWrapper.size s w) in
  let after2 := IconWrapper.getConfig (IconWrapper.size2 width height w) in
  (IconConfig.width after1 = s /\ IconConfig.height after1 = s /\
   agree_up_to_width_height after1 before) /\
  (IconConfig.width after2 = width /\ IconConfig.height after2 = height /\
   agree_up_to_width_height after2 before) /\
  IconWrapper.icon_ (IconWrapper.size s w) = IconWrapper.icon_ w /\
  IconWrapper.icon_ (IconWrapper.size2 width height w) = IconWrapper.icon_ w /\
  (s <> IconConfig.size before ->
   IconConfig.size after1 <> IconConfig.width after1) /\
  (IconConfig.size (IconConfig.setSize s before) = s /\
   IconConfig.width (IconConfig.setSize s before) = s /\
   IconConfig.height (IconConfig.setSize s before) = s).
Proof.
  cbv zeta. destruct w as [icon [w0 h0 sz st sw lc lj fl cl cn sy]].
  cbn. unfold agree_up_to_width_height. cbn.
  repeat split; try reflexivity. congruence.
Qed.

Lemma C9_witness :
  48 <> IconConfig.size
          (IconWrapper.getConfig
             (IconWrapper.mk (Some (Icon.mk "home" "<path/>"))
                IconConfig.default)) /\
  IconConfig.size
    (IconWrapper.getConfig
       (IconWrapper.size 48
          (IconWrapper.mk (Some (Icon.mk "home" "<path/>"))
             IconConfig.default)))
  <> IconConfig.width
       (IconWrapper.getConfig
          (IconWrapper.size 48
             (IconWrapper.mk (Some (Icon.mk "home" "<path/>"))
                IconConfig.default))).
Proof.
  assert (H : 48 <> IconConfig.size
                      (IconWrapper.getConfig
                         (IconWrapper.mk (Some (Icon.mk "home" "<path/>"))
                            IconConfig.default)))
    by discriminate.
  split; [exact H|].
  exact (proj1 (proj2 (proj2 (proj2 (proj2
           (C9_size_setter_frame
              (IconWrapper.mk (Some (Icon.mk "home" "<path/>"))
                 IconConfig.default) 48 0 0))))) H).
Defined.

(** C6. For a wrapper bound to an icon: after [size(s)], [render()]
    carries the attributes width and height with the decimal digits of [s];
    after [color(c)], it carries stroke and fill both with [c].  (The
    attributes are found with the space that precedes them, so the width
    found is not the tail of stroke-width.)  Every fluent setter hands back
    the wrapper still bound to the same icon, so calls chain; a [stroke] or
    [fill] call after [color(c)] replaces that one channel and leaves the
    other, and every other member, as [color(c)] left them. *)
Theorem C6_size_and_color_render (w : IconWrapper.t) (icon : Icon.t) (s : Z)
    (c c' : string) (op : setter)
    (Hbound : IconWrapper.icon_ w = Some icon) :
  let cw := IconWrapper.getConfig w in
  (contains (" " +:+ attribute "width" (pretty s))
     (IconWrapper.render (IconWrapper.size s w)) /\
   contains (" " +:+ attribute "height" (pretty s))
     (IconWrapper.render (IconWrapper.size s w))) /\
  (contains (" " +:+ attribute "stroke" c)
     (IconWrapper.render (IconWrapper.color c w)) /\
   contains (" " +:+ attribute "fill" c)
     (IconWrapper.render (IconWrapper.color c w))) /\
  IconWrapper.icon_ (call op w) = Some icon /\
  (IconWrapper.getConfig (IconWrapper.stroke c' (IconWrapper.color c w))
   = IconConfig.mk (IconConfig.width cw) (IconConfig.height cw)
       (IconConfig.size cw) c' (IconConfig.strokeWidth cw)
       (IconConfig.strokeLinecap cw) (IconConfig.strokeLinejoin cw)
       c c (IconConfig.className cw) (IconConfig.style cw) /\
   contains (" " +:+ attribute "stroke" c')
     (IconWrapper.render (IconWrapper.stroke c' (IconWrapper.color c w))) /\
   contains (" " +:+ attribute "fill" c)
     (IconWrapper.render (IconWrapper.stroke c' (IconWrapper.color c w)))) /\
  (IconWrapper.getConfig (IconWrapper.fill c' (IconWrapper.color c w))
   = IconConfig.mk (IconConfig.width cw) (IconConfig.height cw)
       (IconConfig.size cw) c (IconConfig.strokeWidth cw)
       (IconConfig.strokeLinecap cw) (IconConfig.strokeLinejoin cw)
       c' c (IconConfig.className cw) (IconConfig.style cw) /\
   contains (" " +:+ attribute "stroke" c)
     (IconWrapper.render (IconWrapper.fill c' (IconWrapper.color c w))) /\
   contains (" " +:+ attribute "fill" c')
     (IconWrapper.render (IconWrapper.fill c' (IconWrapper.color c w)))).
Proof.
  cbv zeta.
  assert (Hr : forall w', IconWrapper.icon_ w' = IconWrapper.icon_ w ->
             IconWrapper.render w' = Icon.toSVG icon (IconWrapper.config_ w')).
  { intros w' Hw'. apply render_bound. congruence. }
  split; [|split; [|split; [|split]]].
  - rewrite (Hr (IconWrapper.size s w)) by reflexivity.
    split;
      [exact (toSVG_width icon (IconWrapper.config_ (IconWrapper.size s w)))
      |exact (toSVG_height icon (IconWrapper.config_ (IconWrapper.size s w)))].
  - rewrite (Hr (IconWrapper.color c w)) by reflexivity.
    split;
      [exact (toSVG_stroke icon (IconWrapper.config_ (IconWrapper.color c w)))
      |exact (toSVG_fill icon (IconWrapper.config_ (IconWrapper.color c w)))].
  - now rewrite call_icon.
  - rewrite (Hr (IconWrapper.stroke c' (IconWrapper.color c w))) by reflexivity.
    split; [reflexivity|].
    split;
      [exact (toSVG_stroke icon
                (IconWrapper.config_
                   (IconWrapper.stroke c' (IconWrapper.color c w))))
      |exact (toSVG_fill icon
                (IconWrapper.config_
                   (IconWrapper.stroke c' (IconWrapper.color c w))))].
  - rewrite (Hr (IconWrapper.fill c' (IconWrapper.color c w))) by reflexivity.
    split; [reflexivity|].
    split;
      [exact (toSVG_stroke icon
                (IconWrapper.config_
                   (IconWrapper.fill c' (IconWrapper.color c w))))
      |exact (toSVG_fill icon
                (IconWrapper.config_
                   (IconWrapper.fill c' (IconWrapper.color c w))))].
Qed.

Lemma C6_witness :
  IconWrapper.icon_
    (IconWrapper.mk (Some (Icon.mk "home" "<path/>")) IconConfig.default)
  = Some (Icon.mk "home" "<path/>") /\
  contains (" " +:+ attribute "width" "48")
    (IconWrapper.render
       (IconWrapper.size 48
          (IconWrapper.mk (Some (Icon.mk "home" "<path/>"))
             IconConfig.default))) /\
  contains (" " +:+ attribute "fill" "#ff0000")
    (IconWrapper.render
       (IconWrapper.color "#ff0000"
          (IconWrapper.mk (Some (Icon.mk "home" "<path/>"))
             IconConfig.default))).
Proof.
  split; [reflexivity|].
  pose proof (C6_size_and_color_render
                (IconWrapper.mk (Some (Icon.mk "home" "<path/>"))
                   IconConfig.default)
                (Icon.mk "home" "<path/>") 48 "#ff0000" "#00ff00" Reset
                eq_refl) as H.
  cbv zeta in H.
  split; [exact (proj1 (proj1 H)) | exact (proj2 (proj1 (proj2 H)))].
Defined.




(** * Further properties of the code *)

(** ** Enumeration and membership in the registry *)

Lemma push_back_keys {A : Type} (l : list (string * A)) :
  forall names,
    foldl (fun names pair => push_back names (fst pair)) names l
    = (names ++ l.*1)%list.
Proof.
  induction l as [|pair l IH]; intros names; cbn [foldl].
  - now rewrite app_nil_r.
  - rewrite IH. unfold push_back. cbn [fmap list_fmap].
    now rewrite <- app_assoc.
Qed.

Lemma getAllIconNames_run (icons : gmap string Icon.t) :
  IconRegistry.getAllIconNames icons
  = (Ok (merge_sort String.le (map_to_list icons).*1), icons).
Proof.
  unfold IconRegistry.getAllIconNames, gets. now rewrite push_back_keys.
Qed.

Lemma elem_of_keys (icons : gmap string Icon.t) (name : string) :
  name ∈ (map_to_list icons).*1 <-> is_Some (icons !! name).
Proof.
  rewrite list_elem_of_fmap. split.
  - intros ([k v] & -> & Hin). apply elem_of_map_to_list in Hin. eauto.
  - intros [v Hv]. exists (name, v). split; [reflexivity|].
    now apply elem_of_map_to_list.
Qed.

(** X1. [getAllIconNames] returns normally and leaves the registry alone;
    the list it returns is in ascending lexicographic order, has no
    duplicates, has as many elements as the registry has entries, and holds
    exactly the registered names.  [getAvailableIcons] is the same call. *)
Theorem X1_getAllIconNames_sorted_exact (icons : gmap string Icon.t) :
  exists names,
    IconRegistry.getAllIconNames icons = (Ok names, icons) /\
    IconRegistry.getAvailableIcons icons = (Ok names, icons) /\
    Sorted String.le names /\
    NoDup names /\
    length names = size icons /\
    forall name, name ∈ names <-> is_Some (icons !! name).
Proof.
  exists (merge_sort String.le (map_to_list icons).*1).
  pose proof (merge_sort_Permutation String.le (map_to_list icons).*1) as Hp.
  split; [apply getAllIconNames_run|].
  split; [apply getAllIconNames_run|].
  split; [apply Sorted_merge_sort; apply _|].
  split; [rewrite Hp; apply NoDup_fst_map_to_list|].
  split.
  - rewrite Hp, length_fmap. apply length_map_to_list.
  - intros name. rewrite Hp. apply elem_of_keys.
Qed.

(** X2. The three lookups agree, and none of them changes the registry or
    throws: [hasIcon(name)] is true exactly when [getIcon(name)] is not
    null, and exactly when [generateSVG(name, config)] is not the empty
    string.  So an empty result of [generateSVG] always means an unknown
    name, never an icon whose path data is empty. *)
Theorem X2_lookups_agree (name : string) (config : IconConfig.t)
    (icons : gmap string Icon.t) :
  exists (b : bool) (icon : option Icon.t) (svg : string),
    IconRegistry.hasIcon name icons = (Ok b, icons) /\
    IconRegistry.getIcon name icons = (Ok icon, icons) /\
    IconRegistry.generateSVG name config icons = (Ok svg, icons) /\
    b = bool_decide (is_Some icon) /\
    b = negb (empty svg).
Proof.
  exists (bool_decide (is_Some (icons !! name))), (icons !! name),
    (markup_for icons config name).
  split; [apply hasIcon_run|]. split; [apply getIcon_run|].
  split.
  - unfold IconRegistry.generateSVG.
    rewrite (bind_run _ _ _ _ _ (getIcon_run name icons)).
    unfold markup_for. now destruct (icons !! name).
  - split; [reflexivity|]. unfold markup_for.
    destruct (icons !! name) as [icon|].
    + rewrite bool_decide_eq_true_2 by eauto.
      pose proof (toSVG_nonempty icon config) as Hne.
      destruct (Icon.toSVG icon config); [congruence | reflexivity].
    + rewrite bool_decide_eq_false_2 by (now apply is_Some_None). reflexivity.
Qed.

(** X3. [registerIcon(name, P)] rebinds [name] and nothing else: a lookup
    of any other name gives what it gave before, every name registered
    before is registered after (nothing is ever removed), and the number
    of entries grows by one when [name] is new and stays when it is not. *)
Theorem X3_registerIcon_frame (name P other : string)
    (icons : gmap string Icon.t) :
  (IconRegistry.registerIcon name P ;; IconRegistry.getIcon other) icons
  = (Ok (if decide (other = name) then Some (Icon.mk name P)
         else icons !! other),
     <[name := Icon.mk name P]> icons) /\
  (IconRegistry.registerIcon name P ;; IconRegistry.hasIcon other) icons
  = (Ok (bool_decide (other = name)
         || bool_decide (is_Some (icons !! other))),
     <[name := Icon.mk name P]> icons) /\
  size (snd (IconRegistry.registerIcon name P icons))
  = match icons !! name with
    | Some _ => size icons
    | None => S (size icons)
    end.
Proof.
  assert (Hreg : IconRegistry.registerIcon name P icons
                 = (Ok tt, <[name := Icon.mk name P]> icons)) by reflexivity.
  split; [|split].
  - rewrite (bind_run _ _ _ _ _ Hreg), getIcon_run.
    destruct (decide (other = name)) as [->|Hne].
    + now rewrite lookup_insert_eq.
    + now rewrite lookup_insert_ne.
  - rewrite (bind_run _ _ _ _ _ Hreg), hasIcon_run.
    destruct (decide (other = name)) as [->|Hne].
    + rewrite lookup_insert_eq.
      rewrite (bool_decide_eq_true_2 (name = name)) by reflexivity.
      rewrite bool_decide_eq_true_2 by eauto. reflexivity.
    + rewrite lookup_insert_ne by congruence.
      now rewrite (bool_decide_eq_false_2 (other = name)).
  - rewrite Hreg. cbn [snd].
    destruct (icons !! name) as [old|] eqn:E.
    + rewrite <- (insert_delete_id icons name old E) at 2.
      rewrite <- insert_delete_eq.
      rewrite !map_size_insert_None by apply lookup_delete_eq. reflexivity.
    + now apply map_size_insert_None.
Qed.

(** ** What the markup does and does not determine *)

Lemma length_append (a b : string) :
  String.length (a +:+ b) = (String.length a + String.length b)%nat.
Proof.
  induction a as [|x a IH]; [reflexivity|].
  rewrite append_cons. cbn [String.length]. now rewrite IH.
Qed.

Lemma append_inj_r (t : string) :
  forall a b : string, a +:+ t = b +:+ t -> a = b.
Proof.
  induction a as [|x a IH]; intros [|y b] H.
  - reflexivity.
  - apply (f_equal String.length) in H.
    rewrite !length_append in H. cbn [String.length] in H. lia.
  - apply (f_equal String.length) in H.
    rewrite !length_append in H. cbn [String.length] in H. lia.
  - rewrite !append_cons in H. injection H as -> H.
    f_equal. now apply IH.
Qed.

Lemma toSVG_eq_iff (icon1 icon2 : Icon.t) (config : IconConfig.t) :
  Icon.toSVG icon1 config = Icon.toSVG icon2 config
  <-> Icon.getPathData icon1 = Icon.getPathData icon2.
Proof.
  rewrite !toSVG_shape. split.
  - intros H.
    apply (String.app_inj (opening_tag config)) in H.
    apply (String.app_inj ">") in H.
    now apply append_inj_r in H.
  - now intros ->.
Qed.

(** X4. Under one configuration, two icons have the same markup exactly
    when they have the same path data: the icon's name is never written,
    and different path data always show. *)
Theorem X4_toSVG_determined_by_path_data (icon1 icon2 : Icon.t)
    (config : IconConfig.t) :
  Icon.toSVG icon1 config = Icon.toSVG icon2 config
  <-> Icon.getPathData icon1 = Icon.getPathData icon2.
Proof. apply toSVG_eq_iff. Qed.

(** X5. No attribute value is escaped: a class name that holds a double
    quote can forge a further attribute.  For non-empty [a] and [b], the
    class name made of [a], a double quote, the text [ style=], a double
    quote and [b], with no style, gives the same markup as the class name
    [a] with the style [b]. *)
Theorem X5_class_name_forges_style (icon : Icon.t) (base : IconConfig.t)
    (x y : ascii) (a b : string) :
  Icon.toSVG icon
    (IconConfig.set_style EmptyString
       (IconConfig.set_className
          (String x a +:+ dq +:+ " style=" +:+ dq +:+ String y b) base))
  = Icon.toSVG icon
      (IconConfig.set_style (String y b)
         (IconConfig.set_className (String x a) base)).
Proof.
  rewrite !toSVG_shape.
  unfold opening_tag, optional_attribute, attribute.
  cbn [IconConfig.set_style IconConfig.set_className IconConfig.width
       IconConfig.height IconConfig.fill IconConfig.stroke
       IconConfig.strokeWidth IconConfig.strokeLinecap
       IconConfig.strokeLinejoin IconConfig.className IconConfig.style].
  rewrite (append_cons x a). cbn [empty].
  rewrite <- (append_cons x a).
  repeat rewrite append_assoc. reflexivity.
Qed.

(** ** The wrapper against the registry *)

Lemma of_name_run (iconName : string) (icons : gmap string Icon.t) :
  IconWrapper.of_name iconName icons
  = (match icons !! iconName with
     | None => Throw ("Icon not found: " +:+ iconName)
     | Some icon => Ok (IconWrapper.mk (Some icon) IconConfig.default)
     end, icons).
Proof.
  unfold IconWrapper.of_name.
  rewrite (bind_run _ _ _ _ _ (getIcon_run iconName icons)).
  now destruct (icons !! iconName).
Qed.

Lemma of_name_ok (iconName : string) (icons icons' : gmap string Icon.t)
    (w : IconWrapper.t) :
  IconWrapper.of_name iconName icons = (Ok w, icons') ->
  icons' = icons /\
  exists icon, icons !! iconName = Some icon /\
               w = IconWrapper.mk (Some icon) IconConfig.default.
Proof.
  rewrite of_name_run. destruct (icons !! iconName) as [icon|]; [|discriminate].
  intros H. inversion H. eauto.
Qed.

Lemma generateSVG_run (name : string) (config : IconConfig.t)
    (icons : gmap string Icon.t) :
  IconRegistry.generateSVG name config icons
  = (Ok (markup_for icons config name), icons).
Proof.
  unfold IconRegistry.generateSVG.
  rewrite (bind_run _ _ _ _ _ (getIcon_run name icons)).
  unfold markup_for. now destruct (icons !! name).
Qed.

(** X6. The two ways to the markup agree while the registry stands still:
    for a wrapper constructed by name, after any chain of fluent setters,
    [render()] is what [generateSVG] gives for that name and the wrapper's
    current configuration.  Construction leaves the registry as it was. *)
Theorem X6_render_is_generateSVG (iconName : string) (ops : list setter)
    (icons icons' : gmap string Icon.t) (w : IconWrapper.t)
    (Hw : IconWrapper.of_name iconName icons = (Ok w, icons')) :
  icons' = icons /\
  IconRegistry.generateSVG iconName
    (IconWrapper.getConfig (chain ops w)) icons'
  = (Ok (IconWrapper.render (chain ops w)), icons').
Proof.
  destruct (of_name_ok _ _ _ _ Hw) as (-> & icon & Hicon & ->).
  split; [reflexivity|].
  rewrite generateSVG_run. unfold markup_for. rewrite Hicon.
  erewrite render_bound; [reflexivity|].
  now rewrite chain_icon.
Qed.

Lemma X6_witness :
  IconWrapper.of_name "home" {["home" := Icon.mk "home" "<path/>"]}
  = (Ok (IconWrapper.mk (Some (Icon.mk "home" "<path/>")) IconConfig.default),
     {["home" := Icon.mk "home" "<path/>"]}) /\
  IconRegistry.generateSVG "home"
    (IconWrapper.getConfig
       (chain [Size 48; Color "red"]
          (IconWrapper.mk (Some (Icon.mk "home" "<path/>"))
             IconConfig.default)))
    {["home" := Icon.mk "home" "<path/>"]}
  = (Ok (IconWrapper.render
           (chain [Size 48; Color "red"]
              (IconWrapper.mk (Some (Icon.mk "home" "<path/>"))
                 IconConfig.default))),
     {["home" := Icon.mk "home" "<path/>"]}).
Proof.
  assert (H : IconWrapper.of_name "home"
                {["home" := Icon.mk "home" "<path/>"]}
              = (Ok (IconWrapper.mk (Some (Icon.mk "home" "<path/>"))
                       IconConfig.default),
                 {["home" := Icon.mk "home" "<path/>"]})).
  { rewrite of_name_run. now rewrite lookup_singleton_eq. }
  split; [exact H|].
  exact (proj2 (X6_render_is_generateSVG "home" [Size 48; Color "red"]
                  _ _ _ H)).
Defined.

(** X7. A wrapper holds the icon it was constructed with.  When its name is
    registered again with other path data, the wrapper goes on rendering
    the old path data while [generateSVG] for the same name and
    configuration renders the new one; the two results are equal only if
    the old and the new path data are. *)
Theorem X7_wrapper_keeps_its_icon (iconName P' : string) (ops : list setter)
    (icons : gmap string Icon.t) (w : IconWrapper.t)
    (Hw : IconWrapper.of_name iconName icons = (Ok w, icons)) :
  exists (old : Icon.t) (after : gmap string Icon.t),
    icons !! iconName = Some old /\
    IconRegistry.registerIcon iconName P' icons = (Ok tt, after) /\
    IconWrapper.render (chain ops w)
    = Icon.toSVG old (IconWrapper.getConfig (chain ops w)) /\
    IconRegistry.generateSVG iconName
      (IconWrapper.getConfig (chain ops w)) after
    = (Ok (Icon.toSVG (Icon.mk iconName P')
             (IconWrapper.getConfig (chain ops w))),
       after) /\
    (IconWrapper.render (chain ops w)
     = Icon.toSVG (Icon.mk iconName P')
         (IconWrapper.getConfig (chain ops w))
     <-> Icon.getPathData old = P').
Proof.
  destruct (of_name_ok _ _ _ _ Hw) as (_ & old & Hold & ->).
  exists old, (<[iconName := Icon.mk iconName P']> icons).
  assert (Hr : IconWrapper.render
                 (chain ops (IconWrapper.mk (Some old) IconConfig.default))
               = Icon.toSVG old
                   (IconWrapper.getConfig
                      (chain ops
                         (IconWrapper.mk (Some old) IconConfig.default)))).
  { apply render_bound. now rewrite chain_icon. }
  split; [exact Hold|]. split; [reflexivity|]. split; [exact Hr|].
  split.
  - rewrite generateSVG_run. unfold markup_for.
    now rewrite lookup_insert_eq.
  - rewrite Hr. apply (toSVG_eq_iff old (Icon.mk iconName P')).
Qed.

Lemma X7_witness :
  IconWrapper.of_name "home" {["home" := Icon.mk "home" "<path/>"]}
  = (Ok (IconWrapper.mk (Some (Icon.mk "home" "<path/>")) IconConfig.default),
     {["home" := Icon.mk "home" "<path/>"]}) /\
  exists (old : Icon.t) (after : gmap string Icon.t),
    ({["home" := Icon.mk "home" "<path/>"]} : gmap string Icon.t) !! "home"
    = Some old /\
    IconRegistry.registerIcon "home" "<circle/>"
      {["home" := Icon.mk "home" "<path/>"]}
    = (Ok tt, after) /\
    IconWrapper.render
      (chain [Size 48]
         (IconWrapper.mk (Some (Icon.mk "home" "<path/>")) IconConfig.default))
    = Icon.toSVG old
        (IconWrapper.getConfig
           (chain [Size 48]
              (IconWrapper.mk (Some (Icon.mk "home" "<path/>"))
                 IconConfig.default))).
Proof.
  assert (H : IconWrapper.of_name "home"
                {["home" := Icon.mk "home" "<path/>"]}
              = (Ok (IconWrapper.mk (Some (Icon.mk "home" "<path/>"))
                       IconConfig.default),
                 {["home" := Icon.mk "home" "<path/>"]})).
  { rewrite of_name_run. now rewrite lookup_singleton_eq. }
  split; [exact H|].
  destruct (X7_wrapper_keeps_its_icon "home" "<circle/>" [Size 48] _ _ H)
    as (old & after & H1 & H2 & H3 & _).
  exists old, after. split; [exact H1|]. split; [exact H2 | exact H3].
Defined.

Lemma chain_app (ops1 ops2 : list setter) (w : IconWrapper.t) :
  chain (ops1 ++ ops2) w = chain ops2 (chain ops1 w).
Proof. unfold chain. apply fold_left_app. Qed.

(** X8. [reset()] undoes every setter called before it: whatever the chain
    of calls, the configuration is the default one again and the icon is
    the one the wrapper had; for a bound wrapper [render()] is then the
    icon's [toSVG()] with no argument. *)
Theorem X8_reset_discards_setters (ops : list setter) (w : IconWrapper.t) :
  chain (ops ++ [Reset]) w
  = IconWrapper.mk (IconWrapper.icon_ w) IconConfig.default /\
  IconWrapper.render (chain (ops ++ [Reset]) w)
  = match IconWrapper.icon_ w with
    | Some icon => Icon.toSVG_default icon
    | None => EmptyString
    end.
Proof.
  assert (H : chain (ops ++ [Reset]) w
              = IconWrapper.mk (IconWrapper.icon_ w) IconConfig.default).
  { rewrite chain_app. cbn. unfold IconWrapper.reset. now rewrite chain_icon. }
  split; [exact H|]. rewrite H.
  unfold IconWrapper.render. cbn [IconWrapper.icon_ IconWrapper.config_].
  now destruct (IconWrapper.icon_ w).
Qed.

(** ** Batch rendering, composed *)

(** X12. Batch rendering is rendering name by name: the batch of a single
    name holds what [generateSVG] returns for it, and the batch of two
    lists put end to end is the two batches put end to end. *)
Theorem X12_renderMultiple_composes (names1 names2 : list string)
    (name : string) (config : IconConfig.t) (icons : gmap string Icon.t) :
  exists (svg : string) (svgs1 svgs2 : list string),
    IconRegistry.generateSVG name config icons = (Ok svg, icons) /\
    IconWrapper.renderMultiple [name] config icons = (Ok [svg], icons) /\
    IconWrapper.renderMultiple names1 config icons = (Ok svgs1, icons) /\
    IconWrapper.renderMultiple names2 config icons = (Ok svgs2, icons) /\
    IconWrapper.renderMultiple (names1 ++ names2) config icons
    = (Ok (svgs1 ++ svgs2)%list, icons).
Proof.
  exists (markup_for icons config name),
    (map (markup_for icons config) names1),
    (map (markup_for icons config) names2).
  unfold IconWrapper.renderMultiple. rewrite !renderMultiple_loop_run.
  split; [apply generateSVG_run|]. repeat split.
  cbn [app]. now rewrite map_app.
Qed.

(** ** Themes, beyond one application *)

(** Decide every test left in the goal. *)
Ltac decide_tests :=
  repeat match goal with
         | |- context [Z.eqb ?a ?b] => destruct (Z.eqb_spec a b)
         | |- context [String.eqb ?a ?b] => destruct (String.eqb_spec a b)
         | |- context [empty ?a] => destruct (empty a)
         end;
  try reflexivity; try congruence.

(** X13. Applying a theme twice is applying it once. *)
Theorem X13_applyTheme_idempotent (theme : IconTheme.t) (base : IconConfig.t) :
  IconTheme.applyTheme theme (IconTheme.applyTheme theme base)
  = IconTheme.applyTheme theme base.
Proof.
  rewrite (applyTheme_members theme (IconTheme.applyTheme theme base)).
  rewrite (applyTheme_members theme base). cbv zeta.
  cbn [IconConfig.stroke IconConfig.fill IconConfig.strokeWidth
       IconConfig.width IconConfig.height IconConfig.size IconConfig.color
       IconConfig.strokeLinecap IconConfig.strokeLinejoin
       IconConfig.className IconConfig.style].
  f_equal; decide_tests.
Qed.

(** X14. A theme that was only constructed, with none of its defaults set,
    changes no configuration at all. *)
Theorem X14_fresh_theme_is_neutral (name : string) (base : IconConfig.t) :
  IconTheme.applyTheme (IconTheme.new name) base = base.
Proof.
  rewrite applyTheme_members. cbv zeta.
  unfold IconTheme.new, IconConfig.default.
  cbn [IconTheme.themeConfig_ IconConfig.stroke IconConfig.fill
       IconConfig.strokeWidth IconConfig.width IconConfig.height empty].
  destruct base as [w h sz st sw lc lj fl cl cn sy].
  cbn [IconConfig.stroke IconConfig.fill IconConfig.strokeWidth
       IconConfig.width IconConfig.height IconConfig.size IconConfig.color
       IconConfig.strokeLinecap IconConfig.strokeLinejoin
       IconConfig.className IconConfig.style].
  f_equal; decide_tests.
Qed.

(** X15. The three presets never touch a size or a stroke width, whatever
    the base: [light] and [dark] replace a default stroke by black and
    white and do nothing else; [colorful] replaces a default stroke and,
    independently, a default fill. *)
Theorem X15_presets_recolour_only (base : IconConfig.t) :
  IconTheme.applyTheme IconTheme.light base
  = (if String.eqb (IconConfig.stroke base) "currentColor"
     then IconConfig.set_stroke "#000000" base else base) /\
  IconTheme.applyTheme IconTheme.dark base
  = (if String.eqb (IconConfig.stroke base) "currentColor"
     then IconConfig.set_stroke "#ffffff" base else base) /\
  IconTheme.applyTheme IconTheme.colorful base
  = (let base' :=
       if String.eqb (IconConfig.stroke base) "currentColor"
       then IconConfig.set_stroke "#3b82f6" base else base in
     if String.eqb (IconConfig.fill base) "none"
     then IconConfig.set_fill "#dbeafe" base' else base').
Proof.
  rewrite !applyTheme_members. cbv zeta.
  destruct base as [w h sz st sw lc lj fl cl cn sy].
  cbn. repeat split.
  all: destruct (String.eqb_spec st "currentColor");
    destruct (String.eqb_spec fl "none");
    destruct (Z.eqb_spec sw 2); destruct (Z.eqb_spec w 24);
    destruct (Z.eqb_spec h 24);
    unfold IconConfig.set_stroke, IconConfig.set_fill; cbn; congruence.
Qed.

(** X16. [applyTheme] reads five members of the theme and nothing else:
    two themes whose stored stroke, fill, stroke width, width and height
    agree act alike on every base, whatever their names and their other
    members. *)
Theorem X16_applyTheme_reads_five_members (theme1 theme2 : IconTheme.t)
    (base : IconConfig.t)
    (Hstroke : IconConfig.stroke (IconTheme.getConfig theme1)
               = IconConfig.stroke (IconTheme.getConfig theme2))
    (Hfill : IconConfig.fill (IconTheme.getConfig theme1)
             = IconConfig.fill (IconTheme.getConfig theme2))
    (HstrokeWidth : IconConfig.strokeWidth (IconTheme.getConfig theme1)
                    = IconConfig.strokeWidth (IconTheme.getConfig theme2))
    (Hwidth : IconConfig.width (IconTheme.getConfig theme1)
              = IconConfig.width (IconTheme.getConfig theme2))
    (Hheight : IconConfig.height (IconTheme.getConfig theme1)
               = IconConfig.height (IconTheme.getConfig theme2)) :
  IconTheme.applyTheme theme1 base = IconTheme.applyTheme theme2 base.
Proof.
  unfold IconTheme.getConfig in *. unfold IconTheme.applyTheme.
  now rewrite Hstroke, Hfill, HstrokeWidth, Hwidth, Hheight.
Qed.

Lemma X16_witness :
  IconConfig.stroke
    (IconTheme.getConfig (IconTheme.setDefaultColor "red" (IconTheme.new "a")))
  = IconConfig.stroke
      (IconTheme.getConfig
         (IconTheme.setDefaultStroke "red" (IconTheme.new "b"))) /\
  IconTheme.applyTheme (IconTheme.setDefaultColor "red" (IconTheme.new "a"))
    IconConfig.default
  = IconTheme.applyTheme (IconTheme.setDefaultStroke "red" (IconTheme.new "b"))
      IconConfig.default.
Proof.
  split; [reflexivity|].
  exact (X16_applyTheme_reads_five_members
           (IconTheme.setDefaultColor "red" (IconTheme.new "a"))
           (IconTheme.setDefaultStroke "red" (IconTheme.new "b"))
           IconConfig.default eq_refl eq_refl eq_refl eq_refl eq_refl).
Defined.

(** ** Paint colours *)

Lemma hex_length_byte (b : Z) :
  0 <= b < 256 ->
  String.length (SVGUtils.hex b) = if b <? 16 then 1%nat else 2%nat.
Proof.
  intros Hb.
  assert (Hall : forallb
            (fun n => Nat.eqb (String.length (SVGUtils.hex (Z.of_nat n)))
                        (if Z.of_nat n <? 16 then 1%nat else 2%nat))
            (seq 0 256) = true) by (vm_compute; reflexivity).
  rewrite forallb_forall in Hall.
  specialize (Hall (Z.to_nat b)).
  rewrite Z2Nat.id in Hall by lia.
  apply Nat.eqb_eq, Hall, in_seq. lia.
Qed.

Lemma low_byte_range (x : Z) : 0 <= Z.land x 255 < 256.
Proof.
  change 255 with (Z.ones 8). rewrite Z.land_ones by lia.
  apply Z.mod_pos_bound. lia.
Qed.

(** X18. The colour of a fill paint is written as a hash sign followed by
    the three low bytes of the colour in lowercase hexadecimal with no
    zero padding: a byte below 16 gives one digit, so the text has between
    three and six digits and has six only when all three bytes are at
    least 16.  Different colours can give the same text: 0x012304 and
    0x120304 both give the digits 1234.  A paint of any other type is
    written as none. *)
Theorem X18_fill_colour_is_unpadded_hex (NSVG_PAINT_COLOR other color : Z)
    (pathStream : string) :
  let r := Z.land (Z.shiftr color 16) 255 in
  let g := Z.land (Z.shiftr color 8) 255 in
  let b := Z.land color 255 in
  (exists digits,
      SVGUtils.write_fill NSVG_PAINT_COLOR
        (SVGUtils.mkPaint NSVG_PAINT_COLOR color) pathStream
      = pathStream +:+ " fill=" +:+ dq +:+ "#" +:+ digits +:+ dq /\
      digits = SVGUtils.hex r +:+ SVGUtils.hex g +:+ SVGUtils.hex b /\
      String.length digits
      = ((if (r <? 16)%Z then 1 else 2) + (if (g <? 16)%Z then 1 else 2)
         + (if (b <? 16)%Z then 1 else 2))%nat) /\
  SVGUtils.write_fill NSVG_PAINT_COLOR
    (SVGUtils.mkPaint NSVG_PAINT_COLOR 74500) pathStream
  = SVGUtils.write_fill NSVG_PAINT_COLOR
      (SVGUtils.mkPaint NSVG_PAINT_COLOR 1180420) pathStream /\
  SVGUtils.write_fill NSVG_PAINT_COLOR
    (SVGUtils.mkPaint other color) pathStream
  = (if other =? NSVG_PAINT_COLOR
     then SVGUtils.write_fill NSVG_PAINT_COLOR
            (SVGUtils.mkPaint NSVG_PAINT_COLOR color) pathStream
     else pathStream +:+ " fill=" +:+ dq +:+ "none" +:+ dq).
Proof.
  cbv zeta. split; [|split].
  - eexists. split; [|split; [reflexivity|]].
    + unfold SVGUtils.write_fill, SVGUtils.write_channels.
      cbn [SVGUtils.type SVGUtils.color]. rewrite Z.eqb_refl.
      rewrite !stream_insert_string. repeat rewrite append_assoc.
      reflexivity.
    + rewrite !length_append.
      rewrite !hex_length_byte by apply low_byte_range. lia.
  - unfold SVGUtils.write_fill, SVGUtils.write_channels.
    cbn [SVGUtils.type SVGUtils.color]. rewrite Z.eqb_refl.
    rewrite !stream_insert_string. repeat rewrite append_assoc.
    apply (f_equal (String.append pathStream)). vm_compute. reflexivity.
  - unfold SVGUtils.write_fill. cbn [SVGUtils.type SVGUtils.color].
    rewrite Z.eqb_refl. destruct (other =? NSVG_PAINT_COLOR); reflexivity.
Qed.

(** ** Collections: arguments by reference *)

Lemma addIcon_run (iconName : string) (c : IconCollection.t)
    (icons : gmap string Icon.t) :
  IconCollection.addIcon iconName c icons
  = (Ok (IconCollection.mk (IconCollection.name_ c)
           (IconCollection.iconNames_ c
            ++ filter (fun n => is_Some (icons !! n)) [iconName])%list),
     icons).
Proof.
  unfold IconCollection.addIcon.
  rewrite (bind_run _ _ _ _ _ (hasIcon_run iconName icons)).
  rewrite filter_cons, filter_nil.
  destruct (decide (is_Some (icons !! iconName))) as [Hs|Hn].
  - rewrite bool_decide_eq_true_2 by assumption. reflexivity.
  - rewrite bool_decide_eq_false_2 by assumption.
    rewrite app_nil_r. now destruct c.
Qed.

Lemma addIcons_loop_run (iconNames : list string) (icons : gmap string Icon.t) :
  forall c : IconCollection.t,
    IconCollection.addIcons_loop iconNames c icons
    = (Ok (IconCollection.mk (IconCollection.name_ c)
             (IconCollection.iconNames_ c
              ++ filter (fun n => is_Some (icons !! n)) iconNames)%list),
       icons).
Proof.
  induction iconNames as [|iconName rest IH]; intros c.
  - cbn [IconCollection.addIcons_loop]. rewrite filter_nil, app_nil_r.
    now destruct c.
  - cbn [IconCollection.addIcons_loop].
    rewrite (bind_run _ _ _ _ _ (addIcon_run iconName c icons)).
    rewrite IH. cbn [IconCollection.name_ IconCollection.iconNames_].
    rewrite <- app_assoc, <- filter_app. reflexivity.
Qed.

(** Over the collection's own list the loop is defined exactly when it
    pushes nothing. *)
Lemma addIcons_own_loop_run (c : IconCollection.t)
    (icons : gmap string Icon.t) (remaining : list string) :
  IconCollection.addIcons_own_loop remaining c icons
  = (if decide (Forall (fun n => icons !! n = None) remaining)
     then Some (Ok c, icons) else None).
Proof.
  induction remaining as [|n rest IH]; cbn [IconCollection.addIcons_own_loop].
  - now rewrite decide_True by constructor.
  - rewrite hasIcon_run.
    destruct (icons !! n) as [icon|] eqn:E.
    + rewrite bool_decide_eq_true_2 by eauto.
      rewrite decide_False; [reflexivity|].
      intros H. inversion H; congruence.
    + rewrite bool_decide_eq_false_2 by (now apply is_Some_None).
      rewrite IH. destruct (decide (Forall _ rest)) as [Hr|Hr].
      * now rewrite decide_True by (constructor; assumption).
      * rewrite decide_False; [reflexivity|].
        intros H. inversion H; contradiction.
Qed.

(** [std::find] stops at the first match. *)
Lemma find_spec (s : string) (v : list string) :
  (IconCollection.find s v <= length v)%nat /\
  filter (fun n => n <> s) (take (IconCollection.find s v) v)
  = take (IconCollection.find s v) v /\
  ((IconCollection.find s v < length v)%nat ->
   v !! IconCollection.find s v = Some s).
Proof.
  induction v as [|x v (Hle & Hpre & Hat)]; cbn [IconCollection.find].
  - repeat split; [cbn; lia | cbn; lia].
  - destruct (decide (x = s)) as [->|Hne].
    + repeat split. cbn. lia.
    + cbn [length take lookup]. split; [lia|]. split.
      * rewrite filter_cons_True by assumption. now rewrite Hpre.
      * intros Hlt. apply Hat. lia.
Qed.

(** With a value outside the vector, the loop of [std::remove] has moved
    to the front, in order, the elements that differ from the value. *)
Lemma remove_loop_outside (moved_from : nat -> string -> string)
    (s : string) (todo : nat) :
  forall (i result : nat) (v : list string),
    (result < i)%nat -> (i + todo = length v)%nat ->
    take (snd (IconCollection.remove_loop moved_from
                 (IconCollection.Outside s) todo i result v))
         (fst (IconCollection.remove_loop moved_from
                 (IconCollection.Outside s) todo i result v))
    = (take result v ++ filter (fun n => n <> s) (drop i v))%list.
Proof.
  induction todo as [|todo IH]; intros i result v Hlt Hlen;
    cbn [IconCollection.remove_loop].
  - cbn [fst snd]. rewrite drop_ge by lia. now rewrite filter_nil, app_nil_r.
  - destruct (lookup_lt_is_Some_2 v i) as [x Hx]; [lia|].
    rewrite Hx. cbn [default from_option id IconCollection.deref].
    rewrite (drop_S v x i Hx).
    destruct (decide (x = s)) as [->|Hne].
    + rewrite IH by lia. rewrite filter_cons_False by tauto. reflexivity.
    + rewrite IH by (rewrite ?length_insert; lia).
      rewrite filter_cons_True by assumption.
      rewrite take_insert_ge by lia.
      rewrite (take_S_r _ result x)
        by (apply list_lookup_insert_eq; lia).
      rewrite take_insert_ge by lia.
      rewrite !drop_insert_lt by lia.
      now rewrite <- app_assoc.
Qed.

Lemma removeIcon_outside (moved_from : nat -> string -> string) (s : string)
    (c : IconCollection.t) :
  IconCollection.removeIcon moved_from (IconCollection.Outside s) c
  = Some (IconCollection.mk (IconCollection.name_ c)
            (filter (fun n => n <> s) (IconCollection.iconNames_ c))).
Proof.
  unfold IconCollection.removeIcon, IconCollection.std_remove.
  cbn [IconCollection.deref].
  destruct (find_spec s (IconCollection.iconNames_ c)) as (Hle & Hpre & Hat).
  set (v := IconCollection.iconNames_ c) in *.
  set (m := IconCollection.find s v) in *.
  destruct (decide (m = length v)) as [Hm|Hm].
  - rewrite Hm, take_ge in Hpre by lia.
    rewrite Hm, take_ge by lia. now rewrite Hpre.
  - match goal with
    | |- context [IconCollection.remove_loop ?a ?b ?t ?i ?r ?w] =>
        pose proof (remove_loop_outside moved_from s t i r w) as Hloop;
        destruct (IconCollection.remove_loop a b t i r w) as [v' r']
    end.
    cbn [fst snd] in Hloop. rewrite Hloop by lia.
    do 2 f_equal.
    rewrite <- (take_drop_middle v m s) at 3 by (apply Hat; lia).
    rewrite filter_app, filter_cons_False by tauto.
    now rewrite Hpre.
Qed.

(** ** Icon names *)









(** ** Collections over a growing registry *)

(** X9. [addIcons(names)], for [names] a vector other than the
    collection's own list, returns normally and leaves the registry alone;
    it appends to the membership list, in their order and with their
    repetitions, exactly those of [names] that are registered, and drops
    the others silently; the collection keeps its name, never shrinks, and
    grows by at most the number of names given.  Called with the
    collection's own list (what [getIconNames()] returns), it returns
    normally, and changes nothing, only when no member is registered;
    otherwise the first insertion invalidates the iterators of the running
    loop and the behaviour is undefined. *)
Theorem X9_addIcons_appends_registered (iconNames : list string)
    (c : IconCollection.t) (icons : gmap string Icon.t) :
  (exists c',
      IconCollection.addIcons (IconCollection.Other iconNames) c icons
      = Some (Ok c', icons) /\
      IconCollection.getName c' = IconCollection.getName c /\
      IconCollection.getIconNames c'
      = (IconCollection.getIconNames c
         ++ filter (fun n => is_Some (icons !! n)) iconNames)%list /\
      (IconCollection.size c <= IconCollection.size c'
       <= IconCollection.size c + length iconNames)%nat) /\
  IconCollection.addIcons IconCollection.Own c icons
  = (if decide (Forall (fun n => icons !! n = None)
                  (IconCollection.getIconNames c))
     then Some (Ok c, icons) else None).
Proof.
  split.
  - eexists. split.
    + unfold IconCollection.addIcons. now rewrite addIcons_loop_run.
    + split; [reflexivity|]. split; [reflexivity|].
      unfold IconCollection.size. cbn [IconCollection.iconNames_].
      rewrite length_app.
      pose proof (length_filter (fun n => is_Some (icons !! n)) iconNames).
      lia.
  - unfold IconCollection.addIcons. apply addIcons_own_loop_run.
Qed.

(** X10. [removeIcon(name)], for [name] a string that is not an element
    of the collection's own list, deletes every occurrence of it, not only
    the first: the name is no longer a member, the other members stay, in
    their order, the size drops by the number of occurrences, and a second
    call changes nothing; whatever the moved-from strings hold.  Called
    with a reference to a member, it compares against that member as the
    elements are shifted over it: on a, b, a, c, a the call with the first
    element leaves b, a, c, a, and on a, b, b it leaves b alone. *)
Theorem X10_removeIcon_all_occurrences
    (moved_from : nat -> string -> string) (iconName : string)
    (c : IconCollection.t) :
  (exists c',
      IconCollection.removeIcon moved_from
        (IconCollection.Outside iconName) c = Some c' /\
      (iconName ∉ IconCollection.getIconNames c') /\
      (forall other,
          other ∈ IconCollection.getIconNames c'
          <-> other <> iconName /\ other ∈ IconCollection.getIconNames c) /\
      (IconCollection.getIconNames c'
       `sublist_of` IconCollection.getIconNames c) /\
      (IconCollection.size c
       = IconCollection.size c'
         + length (filter (fun n => n = iconName)
                     (IconCollection.getIconNames c)))%nat /\
      IconCollection.getName c' = IconCollection.getName c /\
      IconCollection.removeIcon moved_from
        (IconCollection.Outside iconName) c' = Some c') /\
  IconCollection.removeIcon moved_from (IconCollection.Element 0)
    (IconCollection.mk (IconCollection.getName c) ["a"; "b"; "a"; "c"; "a"])
  = Some (IconCollection.mk (IconCollection.getName c) ["b"; "a"; "c"; "a"]) /\
  IconCollection.removeIcon moved_from (IconCollection.Element 0)
    (IconCollection.mk (IconCollection.getName c) ["a"; "b"; "b"])
  = Some (IconCollection.mk (IconCollection.getName c) ["b"]).
Proof.
  split; [|split; reflexivity].
  eexists. split; [apply removeIcon_outside|].
  rewrite removeIcon_outside.
  unfold IconCollection.getIconNames, IconCollection.size,
    IconCollection.getName.
  cbn [IconCollection.iconNames_ IconCollection.name_].
  split; [|split; [|split; [|split; [|split]]]].
  - rewrite list_elem_of_filter. tauto.
  - intros other. now rewrite list_elem_of_filter.
  - apply sublist_filter.
  - pose proof (filter_app_complement (fun n => n <> iconName)
                  (IconCollection.iconNames_ c)) as Hp.
    apply Permutation_length in Hp. rewrite length_app in Hp.
    rewrite <- Hp. f_equal. f_equal.
    apply list_filter_iff. intros n.
    destruct (decide (n = iconName)); tauto.
  - reflexivity.
  - do 2 f_equal. rewrite list_filter_filter. apply list_filter_iff. tauto.
Qed.

(** Every member of the collection is registered. *)
Lemma perform_keeps_members_registered
    (moved_from : nat -> string -> string) (a : action)
    (c : IconCollection.t) (icons : gmap string Icon.t) :
  unaliased a ->
  Forall (fun n => is_Some (icons !! n)) (IconCollection.iconNames_ c) ->
  exists c' icons',
    perform moved_from a c icons = Some (Ok c', icons') /\
    IconCollection.name_ c' = IconCollection.name_ c /\
    Forall (fun n => is_Some (icons' !! n)) (IconCollection.iconNames_ c').
Proof.
  intros Ha Hc. destruct a as [n|[ns|]|[n|i]| |n p]; cbn in Ha;
    try contradiction; unfold perform.
  - eexists _, _. split; [now rewrite addIcon_run|]. split; [reflexivity|].
    cbn [IconCollection.iconNames_]. apply Forall_app. split; [exact Hc|].
    apply Forall_forall. intros x Hx. now apply list_elem_of_filter in Hx.
  - eexists _, _. split.
    { unfold IconCollection.addIcons. now rewrite addIcons_loop_run. }
    split; [reflexivity|].
    cbn [IconCollection.iconNames_]. apply Forall_app. split; [exact Hc|].
    apply Forall_forall. intros x Hx. now apply list_elem_of_filter in Hx.
  - rewrite removeIcon_outside.
    eexists _, _. split; [reflexivity|]. split; [reflexivity|].
    cbn [IconCollection.iconNames_].
    apply Forall_forall. intros x Hx. apply list_elem_of_filter in Hx.
    rewrite Forall_forall in Hc. now apply Hc.
  - eexists _, _. split; [reflexivity|]. split; [reflexivity|]. constructor.
  - exists c, (<[n := Icon.mk n p]> icons). split; [reflexivity|].
    split; [reflexivity|].
    eapply Forall_impl; [exact Hc|]. intros x Hx. cbn in Hx |- *.
    destruct (decide (x = n)) as [->|Hne].
    + rewrite lookup_insert_eq. eauto.
    + now rewrite lookup_insert_ne.
Qed.

Lemma perform_all_keeps_members_registered
    (moved_from : nat -> string -> string) (acts : list action) :
  Forall unaliased acts ->
  forall (c : IconCollection.t) (icons : gmap string Icon.t),
    Forall (fun n => is_Some (icons !! n)) (IconCollection.iconNames_ c) ->
    exists c' icons',
      perform_all moved_from acts c icons = Some (Ok c', icons') /\
      IconCollection.name_ c' = IconCollection.name_ c /\
      Forall (fun n => is_Some (icons' !! n)) (IconCollection.iconNames_ c').
Proof.
  induction 1 as [|a rest Ha Hrest IH]; intros c icons Hc.
  - exists c, icons. repeat split. exact Hc.
  - destruct (perform_keeps_members_registered moved_from a c icons Ha Hc)
      as (c1 & icons1 & Hrun & Hname & Hc1).
    destruct (IH c1 icons1 Hc1) as (c' & icons' & Hrun' & Hname' & Hc').
    exists c', icons'. split; [|split; [congruence | exact Hc']].
    cbn [perform_all]. now rewrite Hrun.
Qed.

(** X11. A collection that starts empty and is changed only through
    [addIcon], [addIcons], [removeIcon] and [clear], with arguments that
    are not references into its own membership list, while icons are
    registered in between in any order, never throws, keeps its name, and
    has only registered names as members.  Hence [renderAll] on it gives
    one markup per member and no empty string. *)
Theorem X11_collection_members_stay_registered
    (moved_from : nat -> string -> string)
    (acts : list action) (name : string) (config : IconConfig.t)
    (icons : gmap string Icon.t)
    (Hacts : Forall unaliased acts) :
  exists (c : IconCollection.t) (icons' : gmap string Icon.t)
         (svgs : list string),
    perform_all moved_from acts (IconCollection.new name) icons
    = Some (Ok c, icons') /\
    IconCollection.getName c = name /\
    Forall (fun n => is_Some (icons' !! n)) (IconCollection.getIconNames c) /\
    IconCollection.renderAll config c icons' = (Ok svgs, icons') /\
    length svgs = IconCollection.size c /\
    Forall (fun svg => svg <> EmptyString) svgs.
Proof.
  destruct (perform_all_keeps_members_registered moved_from acts Hacts
              (IconCollection.new name) icons)
    as (c & icons' & Hrun & Hn & Hc).
  { constructor. }
  exists c, icons',
    (map (markup_for icons' config) (IconCollection.iconNames_ c)).
  split; [exact Hrun|]. split; [exact Hn|]. split; [exact Hc|].
  split.
  - unfold IconCollection.renderAll, IconWrapper.renderMultiple.
    now rewrite renderMultiple_loop_run.
  - split; [apply length_map|].
    apply Forall_fmap. eapply Forall_impl; [exact Hc|].
    intros n [icon Hicon]. unfold compose, markup_for. rewrite Hicon.
    apply toSVG_nonempty.
Qed.

Lemma X11_witness :
  Forall unaliased
    [RegisterIcon "home" "<path/>"; AddIcon "home";
     AddIcons (IconCollection.Other ["home"; "ghost"]);
     RemoveIcon (IconCollection.Outside "ghost"); AddIcon "ghost"] /\
  exists (c : IconCollection.t) (icons' : gmap string Icon.t),
    perform_all (fun _ _ => EmptyString)
      [RegisterIcon "home" "<path/>"; AddIcon "home";
       AddIcons (IconCollection.Other ["home"; "ghost"]);
       RemoveIcon (IconCollection.Outside "ghost"); AddIcon "ghost"]
      (IconCollection.new "nav") ∅
    = Some (Ok c, icons') /\
    Forall (fun n => is_Some (icons' !! n)) (IconCollection.getIconNames c).
Proof.
  assert (Hacts : Forall unaliased
            [RegisterIcon "home" "<path/>"; AddIcon "home";
             AddIcons (IconCollection.Other ["home"; "ghost"]);
             RemoveIcon (IconCollection.Outside "ghost"); AddIcon "ghost"])
    by (repeat constructor).
  split; [exact Hacts|].
  destruct (X11_collection_members_stay_registered (fun _ _ => EmptyString)
              _ "nav"
              IconConfig.default ∅ Hacts)
    as (c & icons' & svgs & Hrun & _ & Hc & _).
  exists c, icons'. split; [exact Hrun | exact Hc].
Defined.

(** ** Adding and removing *)

(** X19. For a name and a list of names that are not references into the
    collection's own list: removing the name after the batch insertion is
    the same as removing it first and inserting the batch without that
    name.  [removeIcon] takes out the occurrences that were there and
    those just added, and nothing else. *)
Theorem X19_removeIcon_after_addIcons
    (moved_from : nat -> string -> string) (iconName : string)
    (iconNames : list string) (c : IconCollection.t)
    (icons : gmap string Icon.t) :
  exists c1 c2 c3 : IconCollection.t,
    IconCollection.addIcons (IconCollection.Other iconNames) c icons
    = Some (Ok c1, icons) /\
    IconCollection.removeIcon moved_from (IconCollection.Outside iconName) c1
    = Some c3 /\
    IconCollection.removeIcon moved_from (IconCollection.Outside iconName) c
    = Some c2 /\
    IconCollection.addIcons
      (IconCollection.Other (filter (fun n => n <> iconName) iconNames))
      c2 icons
    = Some (Ok c3, icons).
Proof.
  eexists _, _, _.
  split; [unfold IconCollection.addIcons; now rewrite addIcons_loop_run|].
  split; [apply removeIcon_outside|].
  split; [apply removeIcon_outside|].
  unfold IconCollection.addIcons. rewrite addIcons_loop_run.
  cbn [IconCollection.name_ IconCollection.iconNames_].
  do 4 f_equal.
  rewrite filter_app. f_equal.
  rewrite !list_filter_filter. apply list_filter_iff. tauto.
Qed.
